(** * apkpatcher: the patch-injection pipeline of [apkpatcher3.py]

    A shallow embedding of the text-patching and payload-placing methods of
    the class [Patcher]:

    - [insert_frida_loader]          (SmaliInjector)
    - [get_arch_by_gadget]           (ArchitectureResolver)
    - [create_lib_arch_folders]      (DirectoryPlanner)
    - [delete_existing_gadget], [insert_frida_lib]   (PayloadInstaller)
    - [inject_permission_manifest]   (ManifestPermissionInjector)

    Python values are modelled as the code has them: [str] as a list of
    characters, [int] as [Z] (with [-1] as the "not found" answer of
    [str.find]), [None]-or-string arguments as [option], the file system as
    a finite map from path strings to nodes, and exceptions as the error
    side of a small state-and-exception monad. *)

From Stdlib Require Import ZArith Lia List Ascii String.
From stdpp Require Import base option list gmap strings.

Local Open Scope Z_scope.

(** ** Python strings *)

(** A Python [str]: a sequence of characters. *)
Abbreviation str := (list ascii).

(** String literals of the source. *)
Definition lit (s : string) : str := list_ascii_of_string s.

(** The double quote and the line feed, written by code. *)
Definition dquote : ascii := ascii_of_nat 34.
Definition newline : ascii := ascii_of_nat 10.

Module Py.

(** [len(s)] *)
Definition len (s : str) : Z := Z.of_nat (length s).

(** How a slice bound is brought into [0 .. len] (CPython's
    [PySlice_AdjustIndices] for a step of 1): a negative bound counts from
    the end, and what is still out of range is clamped. *)
Definition adjust (n i : Z) : Z :=
  if i <? 0 then Z.max 0 (i + n) else Z.min i n.

(** [s[lo:hi]] *)
Definition slice (s : str) (lo hi : Z) : str :=
  let lo' := adjust (len s) lo in
  let hi' := adjust (len s) hi in
  take (Z.to_nat (hi' - lo')) (drop (Z.to_nat lo') s).

(** [s[lo:]] *)
Definition slice_from (s : str) (lo : Z) : str := slice s lo (len s).

(** [s.startswith(sub)] *)
Fixpoint starts_with (sub s : str) : bool :=
  match sub, s with
  | [], _ => true
  | _ :: _, [] => false
  | a :: sub', b :: s' => Ascii.eqb a b && starts_with sub' s'
  end.

(** The scan of [str.find]: [s] is the text from absolute position [i] on,
    and [n] candidate positions are left to try. *)
Fixpoint find_at (sub s : str) (i : nat) (n : nat) {struct n} : option nat :=
  match n with
  | O => None
  | S n' =>
      if starts_with sub s then Some i
      else match s with
           | [] => None
           | _ :: s' => find_at sub s' (S i) n'
           end
  end.

(** [s.find(sub, start, stop)]: the lowest index at which [sub] lies within
    [s[start:stop]], or [-1].  The bounds are adjusted as CPython's
    [ADJUST_INDICES] does ([start] is not clamped from above: a start past
    the end finds nothing, not even the empty string). *)
Definition find (s sub : str) (start stop : Z) : Z :=
  let n := len s in
  let stop' := if n <? stop then n
               else if stop <? 0 then Z.max 0 (stop + n) else stop in
  let start' := if start <? 0 then Z.max 0 (start + n) else start in
  if stop' - start' <? len sub then -1
  else match find_at sub (drop (Z.to_nat start') s) (Z.to_nat start')
                     (Z.to_nat (stop' - start' - len sub + 1)) with
       | Some i => Z.of_nat i
       | None => -1
       end.

(** [s.find(sub)] and [s.find(sub, start)] *)
Definition find0 (s sub : str) : Z := find s sub 0 (len s).
Definition find_from (s sub : str) (start : Z) : Z := find s sub start (len s).

(** [sub in s] *)
Definition contains (sub s : str) : bool := negb (find0 s sub =? -1).

(** The scan of [str.replace] for a non-empty [old]: [skip] characters of
    the match just replaced are still to be dropped. *)
Fixpoint replace_from (old new : str) (skip : nat) (s : str) : str :=
  match s with
  | [] => []
  | c :: s' =>
      match skip with
      | S k => replace_from old new k s'
      | O =>
          if starts_with old s
          then new ++ replace_from old new (length old - 1) s'
          else c :: replace_from old new 0 s'
      end
  end.

(** [s.replace(old, new)]: every occurrence of [old], found left to right
    without overlap, becomes [new]; an empty [old] matches before every
    character and at the end. *)
Definition replace (s old new : str) : str :=
  match old with
  | [] => new ++ flat_map (fun c => c :: new) s
  | _ :: _ => replace_from old new 0 s
  end.

(** Truth value of an optional string argument: [None] and [''] are false. *)
Definition truthy (o : option str) : bool :=
  match o with
  | Some (_ :: _) => true
  | _ => false
  end.

(** [os.path.join(a, b)] on a POSIX system. *)
Definition join (a b : str) : str :=
  if starts_with (lit "/") b then b
  else match last a with
       | None => b
       | Some c => if Ascii.eqb c "/"%char then a ++ b else a ++ lit "/" ++ b
       end.

End Py.

(** ** What [find] finds *)

(** [sub] lies in [s] at index [i]: [s[i : i + len(sub)] == sub], within
    the text. *)
Definition occurs_at (sub s : str) (i : Z) : Prop :=
  0 <= i /\ i + Py.len sub <= Py.len s /\ Py.slice s i (i + Py.len sub) = sub.

(** [i] is the lowest index at which [sub] lies within [s[lo:hi]]. *)
Definition found_in (sub s : str) (lo hi i : Z) : Prop :=
  lo <= i /\ i + Py.len sub <= hi /\ occurs_at sub s i /\
  forall j, lo <= j < i -> ~ occurs_at sub s j.

(** [sub] lies nowhere within [s[lo:hi]]. *)
Definition absent_in (sub s : str) (lo hi : Z) : Prop :=
  forall j, lo <= j -> j + Py.len sub <= hi -> ~ occurs_at sub s j.

(** ** The file system and exceptions *)

(** What stands at a path: a regular file with its text, or a directory. *)
Inductive node : Type :=
  | File (content : str)
  | Dir.

(** The exceptions the modelled calls raise. *)
Inductive exn : Type :=
  | FileNotFoundError
  | IsADirectoryError
  | FileExistsError
  | SameFileError.

(** The outcome of a call: a returned value or a raised exception. *)
Inductive result (A : Type) : Type :=
  | Return (a : A)
  | Raise (e : exn).
Arguments Return {A} a.
Arguments Raise {A} e.

(** A computation over the file system.  The file system it leaves is kept
    on both sides: nothing is rolled back when an exception is raised.
    Paths are compared as strings (no normalisation, no links), and a
    write into a directory that does not exist is not refused. *)
Definition io (A : Type) : Type := gmap str node -> result A * gmap str node.

Definition ret {A} (a : A) : io A := fun fs => (Return a, fs).

Definition raise {A} (e : exn) : io A := fun fs => (Raise e, fs).

Definition bind {A B} (c : io A) (k : A -> io B) : io B :=
  fun fs =>
    match c fs with
    | (Return a, fs') => k a fs'
    | (Raise e, fs') => (Raise e, fs')
    end.

Notation "'do' x <- c ;; k" := (bind c (fun x => k))
  (at level 10, x name, c at level 99, k at level 200).

(** [for x in l: body(x)] *)
Fixpoint for_each {A} (l : list A) (body : A -> io unit) : io unit :=
  match l with
  | [] => ret tt
  | x :: l' => do _ <- body x ;; for_each l' body
  end.

Module Os.

(** [os.path.isfile(p)] *)
Definition isfile (p : str) : io bool :=
  fun fs => (Return (match fs !! p with Some (File _) => true | _ => false end), fs).

(** [os.path.isdir(p)] *)
Definition isdir (p : str) : io bool :=
  fun fs => (Return (match fs !! p with Some Dir => true | _ => false end), fs).

(** [os.remove(p)] *)
Definition remove (p : str) : io unit :=
  fun fs =>
    match fs !! p with
    | Some (File _) => (Return tt, delete p fs)
    | Some Dir => (Raise IsADirectoryError, fs)
    | None => (Raise FileNotFoundError, fs)
    end.

(** [os.makedirs(p)] (with [exist_ok] left at [False]) *)
Definition makedirs (p : str) : io unit :=
  fun fs =>
    match fs !! p with
    | Some _ => (Raise FileExistsError, fs)
    | None => (Return tt, <[p := Dir]> fs)
    end.

(** [shutil.copyfile(src, dst)] *)
Definition copyfile (src dst : str) : io unit :=
  fun fs =>
    match fs !! src with
    | None => (Raise FileNotFoundError, fs)
    | Some n =>
        if decide (src = dst) then (Raise SameFileError, fs)
        else match n with
             | Dir => (Raise IsADirectoryError, fs)
             | File c =>
                 match fs !! dst with
                 | Some Dir => (Raise IsADirectoryError, fs)
                 | _ => (Return tt, <[dst := File c]> fs)
                 end
             end
    end.

(** [open(p, 'r').read()] *)
Definition read_text (p : str) : io str :=
  fun fs =>
    match fs !! p with
    | Some (File c) => (Return c, fs)
    | Some Dir => (Raise IsADirectoryError, fs)
    | None => (Raise FileNotFoundError, fs)
    end.

(** [open(p, 'w').write(c)] *)
Definition write_text (p : str) (c : str) : io unit :=
  fun fs =>
    match fs !! p with
    | Some Dir => (Raise IsADirectoryError, fs)
    | _ => (Return tt, <[p := File c]> fs)
    end.

End Os.

(** ** The class [Patcher] *)

Module Patcher.

Definition ARCH_ARM : str := lit "arm".
Definition ARCH_ARM64 : str := lit "arm64".
Definition ARCH_X86 : str := lit "x86".
Definition ARCH_X64 : str := lit "x64".

Definition DEFAULT_GADGET_NAME : str := lit "libfrida-gadget.so".
Definition DEFAULT_CONFIG_NAME : str := lit "libfrida-gadget.config.so".
Definition DEFAULT_HOOKFILE_NAME : str := lit "libhook.js.so".

Definition CONFIG_BIT : Z := Z.shiftl 1 0.
Definition AUTOLOAD_BIT : Z := Z.shiftl 1 1.

Definition INTERNET_PERMISSION : str := lit "android.permission.INTERNET".

(** *** [insert_frida_loader] *)

(** The default of the parameter [frida_lib_name]. *)
Definition default_frida_lib_name : str := lit "frida-gadget".

(** The two triple-quoted templates, before [.replace('<LIBFRIDA>', ...)]. *)
Definition partial_injection_template : str :=
  [newline] ++
  lit "    const-string v0, " ++ [dquote] ++ lit "<LIBFRIDA>" ++ [dquote] ++ [newline] ++
  [newline] ++
  lit "    invoke-static {v0}, Ljava/lang/System;->loadLibrary(Ljava/lang/String;)V" ++ [newline] ++
  [newline] ++
  lit "        ".

Definition full_injection_template : str :=
  [newline] ++
  lit ".method static constructor <clinit>()V" ++ [newline] ++
  lit "    .locals 1" ++ [newline] ++
  [newline] ++
  lit "    .prologue" ++ [newline] ++
  lit "    const-string v0, " ++ [dquote] ++ lit "<LIBFRIDA>" ++ [dquote] ++ [newline] ++
  [newline] ++
  lit "    invoke-static {v0}, Ljava/lang/System;->loadLibrary(Ljava/lang/String;)V" ++ [newline] ++
  [newline] ++
  lit "    return-void" ++ [newline] ++
  lit ".end method" ++ [newline] ++
  lit "        ".

Definition partial_injection_code (frida_lib_name : str) : str :=
  Py.replace partial_injection_template (lit "<LIBFRIDA>") frida_lib_name.

Definition full_injection_code (frida_lib_name : str) : str :=
  Py.replace full_injection_template (lit "<LIBFRIDA>") frida_lib_name.

(** How the [with open(...)] block of [insert_frida_loader] ends: with one
    of its four early [return False] (each after its own message), or by
    falling through with [new_content] ready to be saved. *)
Inductive outcome : Type :=
  | AlreadyInEntrypoint   (* 'The frida-gadget is already in the entrypoint. Skipping...' *)
  | NoDirectMethods       (* 'Could not find direct methods.' *)
  | NoConstructorEnd      (* 'Could not find the end of class constructor.' *)
  | NoPrologue            (* 'Could not find the .prologue of class constructor.' *)
  | NewContent (new_content : str).

(** The block on the text read from the entrypoint file.  The identity
    tests [x is -1] are equalities: CPython keeps one object for [-1]. *)
Definition insert_frida_loader_content (content frida_lib_name : str) : outcome :=
  if Py.contains (lit "frida-gadget") content then AlreadyInEntrypoint
  else
    let direct_methods_start_index := Py.find0 content (lit "# direct methods") in
    let direct_methods_end_index := Py.find0 content (lit "# virtual methods") in
    if (direct_methods_start_index =? -1) || (direct_methods_end_index =? -1)
    then NoDirectMethods
    else
      let class_constructor_start_index :=
        Py.find content (lit ".method static constructor <clinit>()V")
                direct_methods_start_index direct_methods_end_index in
      let has_class_constructor := negb (class_constructor_start_index =? -1) in
      let class_constructor_end_index :=
        if has_class_constructor
        then Py.find content (lit ".end method")
                     class_constructor_start_index direct_methods_end_index
        else -1 in
      if has_class_constructor && (class_constructor_end_index =? -1)
      then NoConstructorEnd
      else
        let prologue_start_index :=
          if has_class_constructor
          then Py.find content (lit ".prologue")
                       class_constructor_start_index class_constructor_end_index
          else -1 in
        if has_class_constructor && (prologue_start_index =? -1)
        then NoPrologue
        else
          let prologue_end_index :=
            if has_class_constructor && (-1 <? prologue_start_index)
            then prologue_start_index + Py.len (lit ".prologue") + 1
            else -1 in
          if has_class_constructor
          then NewContent (Py.slice content 0 prologue_end_index
                           ++ partial_injection_code frida_lib_name
                           ++ Py.slice_from content prologue_end_index)
          else
            let tmp_index :=
              direct_methods_start_index + Py.len (lit "# direct methods") + 1 in
            NewContent (Py.slice content 0 tmp_index
                        ++ full_injection_code frida_lib_name
                        ++ Py.slice_from content tmp_index).

(** The method: read the file, run the block, save [new_content]. *)
Definition insert_frida_loader (entrypoint_smali_path frida_lib_name : str) : io bool :=
  do content <- Os.read_text entrypoint_smali_path ;;
  match insert_frida_loader_content content frida_lib_name with
  | NewContent new_content =>
      do _ <- Os.write_text entrypoint_smali_path new_content ;;
      ret true
  | _ => ret false
  end.

(** The value the method returns after an outcome of its block, and the
    text the entrypoint file holds afterwards. *)
Definition returned (o : outcome) : bool :=
  match o with NewContent _ => true | _ => false end.

Definition text_after (content : str) (o : outcome) : str :=
  match o with NewContent new_content => new_content | _ => content end.

(** *** [get_arch_by_gadget] *)

Definition get_arch_by_gadget (gadget_path : str) : option str :=
  if Py.contains (lit "arm") gadget_path && negb (Py.contains (lit "64") gadget_path)
  then Some ARCH_ARM
  else if Py.contains (lit "arm64") gadget_path
  then Some ARCH_ARM64
  else if Py.contains (lit "i386") gadget_path
          || (Py.contains (lit "x86") gadget_path && negb (Py.contains (lit "64") gadget_path))
  then Some ARCH_X86
  else if Py.contains (lit "x86_64") gadget_path
  then Some ARCH_X64
  else None.

(** *** [create_lib_arch_folders] *)

(** [arch == self.ARCH_...], for an [arch] that may be [None]. *)
Definition arch_is (arch : option str) (name : str) : bool :=
  bool_decide (arch = Some name).

(** [if not os.path.isdir(p): os.makedirs(p)] *)
Definition make_if_absent (p : str) : io unit :=
  do present <- Os.isdir p ;;
  if negb present then Os.makedirs p else ret tt.

Definition create_lib_arch_folders (base_path : str) (arch : option str) : io (list str) :=
  let libs_path := Py.join base_path (lit "lib/") in
  do _ <- make_if_absent libs_path ;;
  let sub_dirs : option (str * option str) :=
    if arch_is arch ARCH_ARM
    then Some (Py.join libs_path (lit "armeabi"), Some (Py.join libs_path (lit "armeabi-v7a")))
    else if arch_is arch ARCH_ARM64
    then Some (Py.join libs_path (lit "arm64-v8a"), None)
    else if arch_is arch ARCH_X86
    then Some (Py.join libs_path (lit "x86"), None)
    else if arch_is arch ARCH_X64
    then Some (Py.join libs_path (lit "x86_64"), None)
    else None in
  match sub_dirs with
  | None => ret []
  | Some (sub_dir, sub_dir_2) =>
      do _ <- make_if_absent sub_dir ;;
      do _ <- (if arch_is arch ARCH_ARM
               then match sub_dir_2 with
                    | Some d => make_if_absent d
                    | None => ret tt
                    end
               else ret tt) ;;
      if arch_is arch ARCH_ARM
      then ret (sub_dir :: match sub_dir_2 with Some d => [d] | None => [] end)
      else ret [sub_dir]
  end.

(** *** [delete_existing_gadget] *)

Definition delete_existing_gadget (arch_folder : str) (delete_custom_files : Z) : io unit :=
  let gadget_path := Py.join arch_folder DEFAULT_GADGET_NAME in
  do present <- Os.isfile gadget_path ;;
  do _ <- (if present then Os.remove gadget_path else ret tt) ;;
  if negb (delete_custom_files =? 0)
  then
    let config_file_path := Py.join arch_folder DEFAULT_CONFIG_NAME in
    let hookfile_path := Py.join arch_folder DEFAULT_HOOKFILE_NAME in
    do _ <- Os.remove config_file_path ;;
    Os.remove hookfile_path
  else ret tt.

(** *** [insert_frida_lib] *)

(** [if path: body(path)], for an optional path argument. *)
Definition when_given (o : option str) (body : str -> io unit) : io unit :=
  match o with
  | Some p => if Py.truthy o then body p else ret tt
  | None => ret tt
  end.

(** The body of the loop over [arch_folders]. *)
Definition install_in_folder (gadget_path : str)
    (config_file_path auto_load_script_path : option str) (folder : str) : io unit :=
  do _ <- (if Py.truthy config_file_path && Py.truthy auto_load_script_path
           then delete_existing_gadget folder (Z.lor CONFIG_BIT AUTOLOAD_BIT)
           else if Py.truthy config_file_path && negb (Py.truthy auto_load_script_path)
           then delete_existing_gadget folder CONFIG_BIT
           else if Py.truthy auto_load_script_path && negb (Py.truthy config_file_path)
           then delete_existing_gadget folder AUTOLOAD_BIT
           else delete_existing_gadget folder 0) ;;
  let target_gadget_path := Py.join folder DEFAULT_GADGET_NAME in
  do _ <- Os.copyfile gadget_path target_gadget_path ;;
  do _ <- when_given config_file_path (fun config =>
            let target_config_path :=
              Py.replace target_gadget_path (lit ".so") (lit ".config.so") in
            Os.copyfile config target_config_path) ;;
  when_given auto_load_script_path (fun script =>
    let target_autoload_path :=
      Py.replace target_gadget_path DEFAULT_GADGET_NAME DEFAULT_HOOKFILE_NAME in
    Os.copyfile script target_autoload_path).

Definition insert_frida_lib (base_path gadget_path : str)
    (config_file_path auto_load_script_path : option str) : io bool :=
  let arch := get_arch_by_gadget gadget_path in
  do arch_folders <- create_lib_arch_folders base_path arch ;;
  match arch_folders with
  | [] => ret false
  | _ :: _ =>
      do _ <- for_each arch_folders
                (install_in_folder gadget_path config_file_path auto_load_script_path) ;;
      ret true
  end.

(** *** [inject_permission_manifest] *)

(** ['<uses-permission android:name="{0}"/>'.format(permission)]: the one
    field of the format string is replaced by the permission. *)
Definition permission_tag (permission : str) : str :=
  lit "<uses-permission android:name=" ++ [dquote] ++ permission ++ [dquote] ++ lit "/>".

(** The text part of the method: [None] for its two [return False], the
    new manifest text otherwise. *)
Definition inject_permission_manifest_content (manifest_content permission : str) : option str :=
  let start_manifest_tag := Py.find0 manifest_content (lit "<manifest ") in
  if start_manifest_tag =? -1 then None
  else
    let end_manifest_tag := Py.find_from manifest_content (lit ">") start_manifest_tag in
    if end_manifest_tag =? -1 then None
    else
      Some (Py.slice manifest_content 0 (end_manifest_tag + 1) ++ [newline]
            ++ lit "    "
            ++ permission_tag permission
            ++ Py.slice_from manifest_content (end_manifest_tag + 1)).

(** The method returns [False] after a failure and nothing ([None]) after
    it has written the new manifest. *)
Definition inject_permission_manifest (base_dir permission : str) : io (option bool) :=
  let manifest_path := Py.join base_dir (lit "AndroidManifest.xml") in
  do manifest_content <- Os.read_text manifest_path ;;
  match inject_permission_manifest_content manifest_content permission with
  | None => ret (Some false)
  | Some new_manifest =>
      do _ <- Os.write_text manifest_path new_manifest ;;
      ret None
  end.

End Patcher.

(** ** The rule of the specification for the architecture

    The specification's section 4.1, word for word: "contains arm64 ->
    arm64; contains arm and not 64 -> arm32; contains x86_64 -> x86_64;
    contains i386, or contains x86 without 64 -> x86", the first match
    winning, and "unknown" when nothing matches. *)

Inductive architecture : Type := arm32 | arm64 | x86 | x86_64.

Definition spec_architecture_rule (name : str) : option architecture :=
  if Py.contains (lit "arm64") name then Some arm64
  else if Py.contains (lit "arm") name && negb (Py.contains (lit "64") name) then Some arm32
  else if Py.contains (lit "x86_64") name then Some x86_64
  else if Py.contains (lit "i386") name
          || (Py.contains (lit "x86") name && negb (Py.contains (lit "64") name))
  then Some x86
  else None.

(** The same rule with its last two cases in the other order. *)
Definition amended_architecture_rule (name : str) : option architecture :=
  if Py.contains (lit "arm64") name then Some arm64
  else if Py.contains (lit "arm") name && negb (Py.contains (lit "64") name) then Some arm32
  else if Py.contains (lit "i386") name
          || (Py.contains (lit "x86") name && negb (Py.contains (lit "64") name))
  then Some x86
  else if Py.contains (lit "x86_64") name then Some x86_64
  else None.

(** The constant of [Patcher] that stands for an architecture. *)
Definition arch_constant (a : architecture) : str :=
  match a with
  | arm32 => Patcher.ARCH_ARM
  | arm64 => Patcher.ARCH_ARM64
  | x86 => Patcher.ARCH_X86
  | x86_64 => Patcher.ARCH_X64
  end.

(** ** Vocabulary of the statements about [insert_frida_loader] *)

(** The load-library call both snippets carry: a [const-string] that puts
    the library name, quoted, into register [v0], then the static call of
    [System.loadLibrary] on [v0]. *)
Definition load_library_call (frida_lib_name : str) : str :=
  lit "    const-string v0, " ++ [dquote] ++ frida_lib_name ++ [dquote] ++ [newline] ++
  [newline] ++
  lit "    invoke-static {v0}, Ljava/lang/System;->loadLibrary(Ljava/lang/String;)V".

(** The partial snippet: the call between blank lines. *)
Definition partial_snippet (frida_lib_name : str) : str :=
  [newline] ++ load_library_call frida_lib_name ++ [newline] ++
  [newline] ++
  lit "        ".

(** The full snippet: a static initializer of its own around the call. *)
Definition full_snippet (frida_lib_name : str) : str :=
  [newline] ++
  lit ".method static constructor <clinit>()V" ++ [newline] ++
  lit "    .locals 1" ++ [newline] ++
  [newline] ++
  lit "    .prologue" ++ [newline] ++
  load_library_call frida_lib_name ++ [newline] ++
  [newline] ++
  lit "    return-void" ++ [newline] ++
  lit ".end method" ++ [newline] ++
  lit "        ".

(** The three structural failures of a class text, each with the warning
    it leads to: a section marker is missing; the static initializer found
    between the markers has no [.end method] before the virtual methods;
    the initializer has no [.prologue] before its end. *)
Inductive structural_defect (content : str) : Patcher.outcome -> Prop :=
  | missing_section_marker :
      absent_in (lit "# direct methods") content 0 (Py.len content) \/
      absent_in (lit "# virtual methods") content 0 (Py.len content) ->
      structural_defect content Patcher.NoDirectMethods
  | unterminated_initializer (d v c : Z) :
      found_in (lit "# direct methods") content 0 (Py.len content) d ->
      found_in (lit "# virtual methods") content 0 (Py.len content) v ->
      found_in (lit ".method static constructor <clinit>()V") content d v c ->
      absent_in (lit ".end method") content c v ->
      structural_defect content Patcher.NoConstructorEnd
  | initializer_without_prologue (d v c e : Z) :
      found_in (lit "# direct methods") content 0 (Py.len content) d ->
      found_in (lit "# virtual methods") content 0 (Py.len content) v ->
      found_in (lit ".method static constructor <clinit>()V") content d v c ->
      found_in (lit ".end method") content c v e ->
      absent_in (lit ".prologue") content c e ->
      structural_defect content Patcher.NoPrologue.

(** What the claim of idempotence asks of a class text and a library name:
    after a first call, a second call with the same name ends as "already
    in the entrypoint" and leaves the text as the first call left it. *)
Definition second_call_skips (content frida_lib_name : str) : Prop :=
  let first := Patcher.insert_frida_loader_content content frida_lib_name in
  let text1 := Patcher.text_after content first in
  let second := Patcher.insert_frida_loader_content text1 frida_lib_name in
  second = Patcher.AlreadyInEntrypoint /\ Patcher.text_after text1 second = text1.

(** ** Sample class texts *)

Module Samples.

(** A class with a static initializer that has a prologue. *)
Definition with_initializer : str :=
  lit ".class public Lcom/example/Main;" ++ [newline] ++
  lit "# direct methods" ++ [newline] ++
  lit ".method static constructor <clinit>()V" ++ [newline] ++
  lit "    .prologue" ++ [newline] ++
  lit "    .locals 2" ++ [newline] ++
  lit "    return-void" ++ [newline] ++
  lit ".end method" ++ [newline] ++
  lit "# virtual methods" ++ [newline].

(** A class with no static initializer. *)
Definition without_initializer : str :=
  lit ".class public Lcom/example/Main;" ++ [newline] ++
  lit "# direct methods" ++ [newline] ++
  lit ".method public constructor <init>()V" ++ [newline] ++
  lit "    return-void" ++ [newline] ++
  lit ".end method" ++ [newline] ++
  lit "# virtual methods" ++ [newline].

(** The same two classes under a source line that names frida-gadget. *)
Definition with_initializer_mentioning_gadget : str :=
  lit ".source " ++ [dquote] ++ lit "frida-gadget.java" ++ [dquote] ++ [newline] ++
  with_initializer.

Definition without_initializer_mentioning_gadget : str :=
  lit ".source " ++ [dquote] ++ lit "frida-gadget.java" ++ [dquote] ++ [newline] ++
  without_initializer.

(** Texts with a structural defect. *)
Definition no_section_markers : str :=
  lit ".class public Lcom/example/Main;" ++ [newline].

Definition initializer_not_ended : str :=
  lit "# direct methods" ++ [newline] ++
  lit ".method static constructor <clinit>()V" ++ [newline] ++
  lit "    .prologue" ++ [newline] ++
  lit "# virtual methods" ++ [newline].

Definition initializer_no_prologue : str :=
  lit "# direct methods" ++ [newline] ++
  lit ".method static constructor <clinit>()V" ++ [newline] ++
  lit "    return-void" ++ [newline] ++
  lit ".end method" ++ [newline] ++
  lit "# virtual methods" ++ [newline].

End Samples.

(** ** Sample manifests *)

Module ManifestSamples.

Definition manifest : str :=
  lit "<?xml version='1.0' encoding='utf-8'?>" ++ [newline] ++
  lit "<manifest package='com.example'>" ++ [newline] ++
  lit "    <application/>" ++ [newline] ++
  lit "</manifest>" ++ [newline].

(** No root element at all, and a root tag that is never closed. *)
Definition no_root_tag : str := lit "<application/>" ++ [newline].

Definition unclosed_root_tag : str :=
  lit "<?xml version='1.0'?>" ++ [newline] ++ lit "<manifest package='com.example'".

End ManifestSamples.

(** ** Vocabulary of the statements about [create_lib_arch_folders] *)

(** A call of [create_lib_arch_folders] on the file system [fs] planned
    the directories [names] under the library root [libs]: it returned
    exactly these, in order, and each of them and the root is a directory
    afterwards; or it raised [FileExistsError], which [os.makedirs] does
    only where a regular file stands at one of these paths. *)
Definition planned (r : result (list str) * gmap str node) (fs : gmap str node)
    (libs : str) (names : list str) : Prop :=
  match r with
  | (Return dirs, fs') =>
      dirs = map (app libs) names /\
      forall p, p ∈ libs :: dirs -> fs' !! p = Some Dir
  | (Raise e, _) =>
      e = FileExistsError /\
      exists p content, p ∈ libs :: map (app libs) names /\ fs !! p = Some (File content)
  end.

(** ** Vocabulary of the statements about the payload installer *)

(** The architecture directory [folder] does not hold both companion
    files installed by an earlier run: the config companion is missing, or
    it is there and the auto-load companion is missing. *)
Definition companions_missing (fs : gmap str node) (folder : str) : Prop :=
  fs !! Py.join folder Patcher.DEFAULT_CONFIG_NAME = None \/
  ((exists content, fs !! Py.join folder Patcher.DEFAULT_CONFIG_NAME = Some (File content)) /\
   fs !! Py.join folder Patcher.DEFAULT_HOOKFILE_NAME = None).

(** The file system after the first step of [delete_existing_gadget]: the
    old payload is gone, if it was a file. *)
Definition without_old_gadget (fs : gmap str node) (folder : str) : gmap str node :=
  match fs !! Py.join folder Patcher.DEFAULT_GADGET_NAME with
  | Some (File _) => delete (Py.join folder Patcher.DEFAULT_GADGET_NAME) fs
  | _ => fs
  end.

(** ** Sample trees *)

Module TreeSamples.

(** The files a run is given: a payload for arm64, a config and a script. *)
Definition gadget : str := lit "/home/u/frida-gadget-android-arm64.so".
Definition config : str := lit "/home/u/gadget.config".
Definition script : str := lit "/home/u/hook.js".

Definition sources : gmap str node :=
  {[ gadget := File (lit "GADGET");
     config := File (lit "CONFIG");
     script := File (lit "SCRIPT") ]}.

(** A tree whose arm64 directory has been planned and is still empty. *)
Definition planned_tree : gmap str node :=
  <[ lit "/tmp/app/lib/" := Dir ]>
    (<[ lit "/tmp/app/lib/arm64-v8a" := Dir ]> sources).

(** A tree that an earlier run has left with a payload and both
    companions. *)
Definition patched_tree : gmap str node :=
  <[ lit "/tmp/app/lib/arm64-v8a/libfrida-gadget.so" := File (lit "OLD GADGET") ]>
    (<[ lit "/tmp/app/lib/arm64-v8a/libfrida-gadget.config.so" := File (lit "OLD CONFIG") ]>
       (<[ lit "/tmp/app/lib/arm64-v8a/libhook.js.so" := File (lit "OLD SCRIPT") ]>
          planned_tree)).

(** The same, under a tree root whose own name holds the payload's
    installed name; the directory the replaced path points into exists. *)
Definition oddly_named_tree : gmap str node :=
  <[ lit "/w/libfrida-gadget.so/lib/" := Dir ]>
    (<[ lit "/w/libfrida-gadget.so/lib/arm64-v8a" := Dir ]>
       (<[ lit "/w/libfrida-gadget.so/lib/arm64-v8a/libfrida-gadget.config.so"
             := File (lit "OLD CONFIG") ]>
          (<[ lit "/w/libfrida-gadget.so/lib/arm64-v8a/libhook.js.so"
                := File (lit "OLD SCRIPT") ]>
             (<[ lit "/w/libhook.js.so/lib/arm64-v8a" := Dir ]> sources)))).

End TreeSamples.

(** ** Vocabulary of the statements about [inject_permission_manifest] *)

(** The line the method puts in: a line break, the indent and the tag. *)
Definition declaration_line (permission : str) : str :=
  [newline] ++ lit "    " ++ Patcher.permission_tag permission.

(** ** More of Python and of the class [Patcher] *)

Module PyMore.

(** [s.split(c)] for a separator of one character: the pieces between the
    separators, at least one piece. *)
Fixpoint split_on (c : ascii) (s : str) : list str :=
  match s with
  | [] => [[]]
  | x :: s' =>
      if Ascii.eqb x c then [] :: split_on c s'
      else match split_on c s' with
           | piece :: pieces => (x :: piece) :: pieces
           | [] => [[x]]
           end
  end.

(** [l[0]] and [l[-1]] of a list of strings that is not empty (what
    [split] returns never is). *)
Definition first_piece (l : list str) : str := hd [] l.
Definition last_piece (l : list str) : str := List.last l [].

End PyMore.

Module Entrypoint.

(** *** [get_entrypoint_class_name]

    The method on the text that [aapt dump badging] printed. *)

(** What is made of the first line that holds [launchable-activity:]. *)
Definition class_of_line (line : str) : str :=
  let name_start := Py.find0 line (lit "name=") in
  Py.replace
    (Py.replace
       (Py.replace
          (PyMore.first_piece (PyMore.split_on " " (Py.slice_from line name_start)))
          (lit "name=") [])
       (lit "'") [])
    [dquote] [].

(** The loop over the lines, with its [break]. *)
Fixpoint class_of_lines (dump_lines : list str) : option str :=
  match dump_lines with
  | [] => None
  | line :: rest =>
      if Py.contains (lit "launchable-activity:") line
      then Some (class_of_line line)
      else class_of_lines rest
  end.

Definition get_entrypoint_class_name (dump_output : str) : option str :=
  class_of_lines (PyMore.split_on newline dump_output).

(** *** [get_entrypoint_smali_path]

    [files_at_path] is what [os.listdir(base_path)] answered, in its
    order. *)

(** The path tried under one child of the tree root. *)
Definition entrypoint_tmp (base_path file entrypoint_class : str) : str :=
  Py.join (Py.join base_path file)
          (Py.replace entrypoint_class (lit ".") (lit "/") ++ lit ".smali").

Fixpoint get_entrypoint_smali_path (files_at_path : list str)
    (base_path entrypoint_class : str) : io (option str) :=
  match files_at_path with
  | [] => ret None
  | file :: rest =>
      if Py.starts_with (lit "smali") file
      then
        do found <- Os.isfile (entrypoint_tmp base_path file entrypoint_class) ;;
        if found
        then ret (Some (entrypoint_tmp base_path file entrypoint_class))
        else get_entrypoint_smali_path rest base_path entrypoint_class
      else get_entrypoint_smali_path rest base_path entrypoint_class
  end.

End Entrypoint.

Module EntrypointSamples.

(** Lines of a badging dump, with single quotes as [aapt] prints them. *)
Definition badging : str :=
  lit "package: name='com.example' versionCode='1'" ++ [newline] ++
  lit "launchable-activity: name='com.example.Main'  label='' icon=''" ++ [newline] ++
  lit "densities: '160'" ++ [newline].

Definition badging_without_activity : str :=
  lit "package: name='com.example' versionCode='1'" ++ [newline].

(** A tree with two smali roots; the class is in the second. *)
Definition listing : list str :=
  [lit "AndroidManifest.xml"; lit "smali"; lit "res"; lit "smali_classes2"].

Definition tree : gmap str node :=
  {[ lit "/tmp/app/smali_classes2/com/example/Main.smali" := File (lit ".class") ]}.

End EntrypointSamples.

(** ** Vocabulary of the statements about the badging dump *)

(** A line of the dump that gives the activity's class [cls] between two
    quote characters [q], after the text [pre] and before the text
    [rest]. *)
Definition activity_line (pre : str) (q : ascii) (cls rest : str) : str :=
  pre ++ lit "name=" ++ q :: cls ++ q :: rest.

Module Workdir.

(** *** [create_temp_folder_for_apk]

    The directory the method computes, removes if it is there, makes
    again and returns; [system_tmp_dir] is what [tempfile.gettempdir()]
    answered. *)
Definition final_tmp_dir (system_tmp_dir apk_path : str) : str :=
  let apkpatcher_tmp_dir := Py.join system_tmp_dir (lit "apkpatcher_tmp") in
  let apk_name := PyMore.last_piece (PyMore.split_on "/" apk_path) in
  Py.join apkpatcher_tmp_dir
    (Py.replace (Py.replace apk_name (lit ".apk") []) (lit ".") (lit "_")).

End Workdir.

(** * Part II: properties *)

(** ** The string primitives on examples *)

Example find_examples :
  Py.find0 (lit "hello world") (lit "o") = 4 /\
  Py.find (lit "hello world") (lit "o") 5 11 = 7 /\
  Py.find (lit "hello world") (lit "o") 5 7 = -1 /\
  Py.find (lit "hello world") (lit "") 11 11 = 11 /\
  Py.find (lit "hello world") (lit "") 12 20 = -1 /\
  Py.find (lit "hello world") (lit "world") (-5) 99 = 6 /\
  Py.find0 (lit "hello world") (lit "xyz") = -1.
Proof. repeat split; reflexivity. Qed.

Example slice_examples :
  Py.slice (lit "hello") 0 2 = lit "he" /\
  Py.slice_from (lit "hello") 2 = lit "llo" /\
  Py.slice (lit "hello") 0 9 = lit "hello" /\
  Py.slice_from (lit "hello") 9 = [] /\
  Py.slice (lit "hello") (-3) (-1) = lit "ll".
Proof. repeat split; reflexivity. Qed.

Example replace_examples :
  Py.replace (lit "a.so.so") (lit ".so") (lit ".config.so") = lit "a.config.so.config.so" /\
  Py.replace (lit "aaa") (lit "aa") (lit "b") = lit "ba" /\
  Py.replace (lit "abc") [] (lit "-") = lit "-a-b-c-".
Proof. repeat split; reflexivity. Qed.

Example join_examples :
  Py.join (lit "/tmp/app") (lit "lib/") = lit "/tmp/app/lib/" /\
  Py.join (lit "/tmp/app/lib/") (lit "armeabi") = lit "/tmp/app/lib/armeabi" /\
  Py.join [] (lit "lib/") = lit "lib/" /\
  Py.join (lit "a") (lit "/b") = lit "/b".
Proof. repeat split; reflexivity. Qed.

(** ** Facts about the string primitives *)

Section StringFacts.

Local Open Scope nat_scope.

Lemma starts_with_app (sub r : str) : Py.starts_with sub (sub ++ r) = true.
Proof.
  induction sub as [|a sub IH]; simpl; [reflexivity|].
  rewrite Ascii.eqb_refl. exact IH.
Qed.

Lemma starts_with_inv (sub s : str) :
  Py.starts_with sub s = true -> exists r, s = sub ++ r.
Proof.
  revert s. induction sub as [|a sub IH]; intros s H.
  - exists s. reflexivity.
  - destruct s as [|b s]; simpl in H; [discriminate|].
    apply andb_prop in H as [Hab Hs].
    apply Ascii.eqb_eq in Hab. subst b.
    destruct (IH _ Hs) as [r ->]. exists r. reflexivity.
Qed.

Lemma starts_with_iff (sub s : str) :
  Py.starts_with sub s = true <-> exists r, s = sub ++ r.
Proof.
  split; [apply starts_with_inv|]. intros [r ->]. apply starts_with_app.
Qed.

(** The scan returns the first position, counted from [i], at which the
    rest of the text starts with [sub]; it returns [None] only when none of
    the [n] positions does. *)
Lemma find_at_spec (sub : str) (n : nat) :
  forall (s : str) (i : nat),
    match Py.find_at sub s i n with
    | Some j =>
        i <= j < i + n /\
        Py.starts_with sub (drop (j - i) s) = true /\
        forall k, k < j - i -> Py.starts_with sub (drop k s) = false
    | None => forall k, k < n -> Py.starts_with sub (drop k s) = false
    end.
Proof.
  induction n as [|n IH]; intros s i; simpl.
  - intros k Hk. lia.
  - destruct (Py.starts_with sub s) eqn:Hs.
    + replace (i - i) with 0 by lia. rewrite drop_0.
      repeat split; [lia | lia | exact Hs | intros k Hk; lia].
    + destruct s as [|c s].
      * intros k _. rewrite drop_nil. exact Hs.
      * specialize (IH s (S i)).
        destruct (Py.find_at sub s (S i) n) as [j|].
        -- destruct IH as ([Hij Hjn] & Hj & Hbefore).
           replace (j - i) with (S (j - S i)) by lia. simpl.
           repeat split; [lia | lia | exact Hj |].
           intros [|k] Hk; [exact Hs|]. simpl. apply Hbefore. lia.
        -- intros [|k] Hk; [exact Hs|]. simpl. apply IH. lia.
Qed.

End StringFacts.

Section FindFacts.

Implicit Types (s sub a b : str) (i j lo hi : Z).

Lemma len_nonneg s : 0 <= Py.len s.
Proof. unfold Py.len. lia. Qed.

Lemma len_app a b : Py.len (a ++ b) = Py.len a + Py.len b.
Proof. unfold Py.len. rewrite length_app. lia. Qed.

Lemma adjust_id s i : 0 <= i <= Py.len s -> Py.adjust (Py.len s) i = i.
Proof.
  intros H. unfold Py.adjust.
  destruct (Z.ltb_spec i 0); lia.
Qed.

(** [s[lo:hi]] for bounds inside the text. *)
Lemma slice_inner s lo hi :
  0 <= lo <= hi -> hi <= Py.len s ->
  Py.slice s lo hi = take (Z.to_nat (hi - lo)) (drop (Z.to_nat lo) s).
Proof.
  intros H1 H2. unfold Py.slice.
  rewrite !adjust_id by lia. reflexivity.
Qed.

(** [s[0:k]] for a [k] that is not negative: the first [k] characters. *)
Lemma slice_to s i : 0 <= i -> Py.slice s 0 i = take (Z.to_nat i) s.
Proof.
  intros Hi. unfold Py.slice, Py.adjust.
  pose proof (len_nonneg s) as Hn. unfold Py.len in *.
  destruct (Z.ltb_spec 0 0); [lia|]. destruct (Z.ltb_spec i 0); [lia|].
  rewrite (Z.min_l 0) by lia. rewrite Z.sub_0_r.
  change (Z.to_nat 0) with 0%nat. rewrite drop_0.
  destruct (Z.le_gt_cases i (Z.of_nat (length s))).
  - rewrite Z.min_l by lia. reflexivity.
  - rewrite Z.min_r by lia. rewrite Nat2Z.id.
    rewrite !take_ge by lia. reflexivity.
Qed.

(** [s[k:]] for a [k] that is not negative: what follows the first [k]
    characters. *)
Lemma slice_from_drop s i : 0 <= i -> Py.slice_from s i = drop (Z.to_nat i) s.
Proof.
  intros Hi. unfold Py.slice_from, Py.slice, Py.adjust.
  pose proof (len_nonneg s) as Hn. unfold Py.len in *.
  destruct (Z.ltb_spec i 0); [lia|].
  destruct (Z.ltb_spec (Z.of_nat (length s)) 0); [lia|].
  rewrite (Z.min_l (Z.of_nat (length s))) by lia.
  destruct (Z.le_gt_cases i (Z.of_nat (length s))).
  - rewrite Z.min_l by lia. apply take_ge. rewrite length_drop. lia.
  - rewrite Z.min_r by lia. rewrite Nat2Z.id.
    rewrite !drop_ge by lia. apply take_nil.
Qed.

(** Splitting a text at a position that is not negative loses nothing. *)
Lemma slice_to_from s i : 0 <= i -> Py.slice s 0 i ++ Py.slice_from s i = s.
Proof.
  intros Hi. rewrite slice_to, slice_from_drop by lia. apply take_drop.
Qed.

(** An occurrence at [i] splits the text around it. *)
Lemma occurs_at_split sub s i :
  occurs_at sub s i <-> exists a b, s = a ++ sub ++ b /\ Py.len a = i.
Proof.
  split.
  - intros (H0 & Hlen & Hs).
    pose proof (len_nonneg sub) as Hsub.
    rewrite slice_inner in Hs by lia.
    exists (take (Z.to_nat i) s), (drop (Z.to_nat (i + Py.len sub - i)) (drop (Z.to_nat i) s)).
    split.
    + rewrite <- (take_drop (Z.to_nat i) s) at 1. f_equal.
      rewrite <- (take_drop (Z.to_nat (i + Py.len sub - i)) (drop (Z.to_nat i) s)) at 1.
      f_equal. exact Hs.
    + unfold Py.len in *. rewrite length_take. lia.
  - intros (a & b & -> & <-).
    pose proof (len_nonneg a) as Ha. pose proof (len_nonneg sub) as Hsub.
    repeat split; [lia | rewrite !len_app; pose proof (len_nonneg b); lia |].
    rewrite slice_inner by (rewrite ?len_app; pose proof (len_nonneg b); lia).
    unfold Py.len. rewrite Nat2Z.id.
    replace (Z.to_nat (Z.of_nat (length a) + Z.of_nat (length sub) - Z.of_nat (length a)))
      with (length sub) by lia.
    rewrite drop_app_length. apply take_app_length.
Qed.

(** The scan's test at offset [k] is an occurrence at index [k]. *)
Lemma starts_with_occurs sub s (k : nat) :
  Py.starts_with sub (drop k s) = true ->
  (k <= length s)%nat -> occurs_at sub s (Z.of_nat k).
Proof.
  intros H Hk. apply starts_with_inv in H as [r Hr].
  apply occurs_at_split. exists (take k s), r. split.
  - rewrite <- Hr. symmetry. apply take_drop.
  - unfold Py.len. rewrite length_take. lia.
Qed.

Lemma occurs_starts_with sub s (k : nat) :
  occurs_at sub s (Z.of_nat k) -> Py.starts_with sub (drop k s) = true.
Proof.
  intros H. apply occurs_at_split in H as (a & b & -> & Ha).
  unfold Py.len in Ha. apply Nat2Z.inj in Ha. subst k.
  rewrite drop_app_length. apply starts_with_app.
Qed.

(** [find] within bounds that lie inside the text: either [-1] and no
    occurrence in the range, or the lowest occurrence in the range. *)
Lemma find_cases s sub lo hi :
  0 <= lo -> 0 <= hi <= Py.len s ->
  (Py.find s sub lo hi = -1 /\ absent_in sub s lo hi) \/
  (Py.find s sub lo hi <> -1 /\ found_in sub s lo hi (Py.find s sub lo hi)).
Proof.
  intros Hlo Hhi. unfold Py.find.
  pose proof (len_nonneg sub) as Hsub.
  destruct (Z.ltb_spec (Py.len s) hi); [lia|].
  destruct (Z.ltb_spec hi 0); [lia|].
  destruct (Z.ltb_spec lo 0); [lia|].
  destruct (Z.ltb_spec (hi - lo) (Py.len sub)) as [Hshort|Hfits].
  - left. split; [reflexivity|]. intros j Hj1 Hj2. lia.
  - pose proof (find_at_spec sub (Z.to_nat (hi - lo - Py.len sub + 1))
                  (drop (Z.to_nat lo) s) (Z.to_nat lo)) as Hscan.
    destruct (Py.find_at sub (drop (Z.to_nat lo) s) (Z.to_nat lo)
                (Z.to_nat (hi - lo - Py.len sub + 1))) as [r|].
    + right. destruct Hscan as ([Hr1 Hr2] & Hr & Hbefore).
      split; [lia|]. rewrite drop_drop in Hr.
      replace (Z.to_nat lo + (r - Z.to_nat lo))%nat with r in Hr by lia.
      unfold found_in. split; [lia|]. split; [lia|]. split.
      * apply starts_with_occurs; [exact Hr|]. unfold Py.len in *. lia.
      * intros j Hj Hocc.
        specialize (Hbefore (Z.to_nat j - Z.to_nat lo)%nat).
        rewrite drop_drop in Hbefore.
        replace (Z.to_nat lo + (Z.to_nat j - Z.to_nat lo))%nat
          with (Z.to_nat j) in Hbefore by lia.
        rewrite <- (Z2Nat.id j) in Hocc by lia.
        apply occurs_starts_with in Hocc.
        rewrite Hbefore in Hocc by lia. discriminate.
    + left. split; [reflexivity|]. intros j Hj1 Hj2 Hocc.
      specialize (Hscan (Z.to_nat j - Z.to_nat lo)%nat).
      rewrite drop_drop in Hscan.
      replace (Z.to_nat lo + (Z.to_nat j - Z.to_nat lo))%nat
        with (Z.to_nat j) in Hscan by lia.
      rewrite <- (Z2Nat.id j) in Hocc by lia.
      apply occurs_starts_with in Hocc.
      rewrite Hscan in Hocc by lia. discriminate.
Qed.

End FindFacts.

Section FindCorrect.

Implicit Types (s sub a b : str) (i j lo hi : Z).

Lemma found_not_absent sub s lo hi i :
  found_in sub s lo hi i -> absent_in sub s lo hi -> False.
Proof.
  intros (Hlo & Hhi & Hocc & _) Habs. exact (Habs i Hlo Hhi Hocc).
Qed.

Lemma found_in_unique sub s lo hi i j :
  found_in sub s lo hi i -> found_in sub s lo hi j -> i = j.
Proof.
  intros (Hi1 & Hi2 & Hi3 & Hi4) (Hj1 & Hj2 & Hj3 & Hj4).
  destruct (Z.lt_trichotomy i j) as [Hlt|[Heq|Hgt]]; [|exact Heq|].
  - exfalso. apply (Hj4 i); [lia | exact Hi3].
  - exfalso. apply (Hi4 j); [lia | exact Hj3].
Qed.

Lemma found_in_nonneg sub s lo hi i : found_in sub s lo hi i -> 0 <= i.
Proof. intros (_ & _ & (H & _) & _). exact H. Qed.

(** [find] answers [-1] exactly when [sub] is absent from the range. *)
Lemma find_absent_iff s sub lo hi :
  0 <= lo -> 0 <= hi <= Py.len s ->
  Py.find s sub lo hi = -1 <-> absent_in sub s lo hi.
Proof.
  intros Hlo Hhi.
  destruct (find_cases s sub lo hi Hlo Hhi) as [[He Ha]|[Hne Hf]].
  - tauto.
  - split; [intros He; contradiction|].
    intros Ha. exfalso. exact (found_not_absent _ _ _ _ _ Hf Ha).
Qed.

(** [find] answers [i] other than [-1] exactly when [i] is the lowest
    occurrence in the range. *)
Lemma find_found_iff s sub lo hi i :
  0 <= lo -> 0 <= hi <= Py.len s ->
  (Py.find s sub lo hi = i /\ i <> -1) <-> found_in sub s lo hi i.
Proof.
  intros Hlo Hhi.
  destruct (find_cases s sub lo hi Hlo Hhi) as [[He Ha]|[Hne Hf]].
  - split.
    + intros [H1 H2]. congruence.
    + intros Hf. exfalso. exact (found_not_absent _ _ _ _ _ Hf Ha).
  - split.
    + intros [<- _]. exact Hf.
    + intros Hi. rewrite (found_in_unique _ _ _ _ _ _ Hi Hf).
      split; [reflexivity | exact Hne].
Qed.

(** The answer of [find] is [-1] or an index of the text. *)
Lemma find_range s sub lo hi :
  0 <= lo -> 0 <= hi <= Py.len s ->
  Py.find s sub lo hi = -1 \/
  (lo <= Py.find s sub lo hi /\ Py.find s sub lo hi + Py.len sub <= hi).
Proof.
  intros Hlo Hhi.
  destruct (find_cases s sub lo hi Hlo Hhi) as [[He _]|[_ (H1 & H2 & _)]];
    [left; exact He | right; split; assumption].
Qed.

Lemma find0_bounds s : 0 <= 0 /\ 0 <= Py.len s <= Py.len s.
Proof. pose proof (len_nonneg s). lia. Qed.

(** [sub in s] holds exactly when the text splits around a copy of [sub]. *)
Lemma contains_iff sub s :
  Py.contains sub s = true <-> exists a b, s = a ++ sub ++ b.
Proof.
  unfold Py.contains, Py.find0.
  destruct (find0_bounds s) as [H0 Hn].
  destruct (find_cases s sub 0 (Py.len s) H0 Hn) as [[He Ha]|[Hne Hf]].
  - rewrite He. simpl. split; [discriminate|].
    intros (a & b & Hs). exfalso.
    apply (Ha (Py.len a)).
    + apply len_nonneg.
    + rewrite Hs, !len_app. pose proof (len_nonneg b). lia.
    + apply occurs_at_split. exists a, b. split; [exact Hs | reflexivity].
  - destruct (Z.eqb_spec (Py.find s sub 0 (Py.len s)) (-1)) as [E|_];
      [contradiction|]. simpl. split; [|reflexivity]. intros _.
    destruct Hf as (_ & _ & Hocc & _).
    apply occurs_at_split in Hocc as (a & b & Hs & _). exists a, b. exact Hs.
Qed.

Lemma contains_false_iff sub s :
  Py.contains sub s = false <-> ~ exists a b, s = a ++ sub ++ b.
Proof.
  rewrite <- contains_iff. destruct (Py.contains sub s); split; intros H;
    try discriminate; try reflexivity; try (intros E; discriminate).
  exfalso. apply H. reflexivity.
Qed.

(** A text that holds [sub] holds every part of [sub]. *)
Lemma contains_part sub s (x y part : str) :
  sub = x ++ part ++ y -> Py.contains sub s = true -> Py.contains part s = true.
Proof.
  intros -> H. apply contains_iff in H as (a & b & ->).
  apply contains_iff. exists (a ++ x), (y ++ b).
  rewrite <- !app_assoc. reflexivity.
Qed.

(** What holds [sub] keeps holding it inside a longer text. *)
Lemma contains_embed sub s (pre post : str) :
  Py.contains sub s = true -> Py.contains sub (pre ++ s ++ post) = true.
Proof.
  intros H. apply contains_iff in H as (a & b & ->).
  apply contains_iff. exists (pre ++ a), (b ++ post).
  rewrite <- !app_assoc. reflexivity.
Qed.

Lemma contains_app_r sub s (pre : str) :
  Py.contains sub s = true -> Py.contains sub (pre ++ s) = true.
Proof.
  intros H. rewrite <- (app_nil_r s). apply contains_embed. exact H.
Qed.

Lemma contains_app_l sub s (post : str) :
  Py.contains sub s = true -> Py.contains sub (s ++ post) = true.
Proof. intros H. apply (contains_embed sub s [] post). exact H. Qed.

End FindCorrect.

(** On a text given in full, [found_in] and [absent_in] are settled by
    running [find]. *)
Ltac found_by_find :=
  apply find_found_iff;
  [ lia
  | vm_compute; split; discriminate
  | split; [vm_compute; reflexivity | lia] ].

Ltac absent_by_find :=
  apply find_absent_iff;
  [ lia
  | vm_compute; split; discriminate
  | vm_compute; reflexivity ].

(** ** [insert_frida_loader]: the snippets *)

Section Snippets.

Import Patcher.

(** [.replace('<LIBFRIDA>', name)] fills the one placeholder of each
    template, whatever the name (the name itself is not scanned again). *)
Lemma partial_injection_code_snippet (frida_lib_name : str) :
  partial_injection_code frida_lib_name = partial_snippet frida_lib_name.
Proof.
  unfold partial_snippet, load_library_call. rewrite <- !app_assoc.
  vm_compute. reflexivity.
Qed.

Lemma full_injection_code_snippet (frida_lib_name : str) :
  full_injection_code frida_lib_name = full_snippet frida_lib_name.
Proof.
  unfold full_snippet, load_library_call. rewrite <- !app_assoc.
  vm_compute. reflexivity.
Qed.

(** Both snippets hold the library name. *)
Lemma partial_snippet_holds_name (sub frida_lib_name : str) :
  Py.contains sub frida_lib_name = true ->
  Py.contains sub (partial_snippet frida_lib_name) = true.
Proof.
  intros H. unfold partial_snippet, load_library_call.
  rewrite <- !app_assoc.
  rewrite (app_assoc [newline]), (app_assoc _ [dquote]).
  apply contains_embed. exact H.
Qed.

Lemma full_snippet_holds_name (sub frida_lib_name : str) :
  Py.contains sub frida_lib_name = true ->
  Py.contains sub (full_snippet frida_lib_name) = true.
Proof.
  intros H. unfold full_snippet, load_library_call.
  rewrite <- !app_assoc.
  do 10 apply contains_app_r.
  apply contains_app_l. exact H.
Qed.

End Snippets.

(** ** [insert_frida_loader]: how the block ends *)

Section Loader.

Import Patcher.

Implicit Types (content lib : str) (d v c e p : Z).

Lemma find_of_found s sub lo hi i :
  0 <= lo -> 0 <= hi <= Py.len s -> found_in sub s lo hi i ->
  Py.find s sub lo hi = i /\ (i =? -1) = false.
Proof.
  intros Hlo Hhi Hf. apply find_found_iff in Hf as [H1 H2]; [|lia|lia].
  split; [exact H1|]. apply Z.eqb_neq. exact H2.
Qed.

Lemma find_of_absent s sub lo hi :
  0 <= lo -> 0 <= hi <= Py.len s -> absent_in sub s lo hi ->
  Py.find s sub lo hi = -1.
Proof. intros Hlo Hhi Ha. apply find_absent_iff; assumption. Qed.

Lemma find0_of_found s sub i :
  found_in sub s 0 (Py.len s) i -> Py.find0 s sub = i /\ (i =? -1) = false.
Proof.
  intros Hf. pose proof (len_nonneg s). apply find_of_found; [lia|lia|exact Hf].
Qed.

Lemma find0_of_absent s sub :
  absent_in sub s 0 (Py.len s) -> Py.find0 s sub = -1.
Proof.
  intros Ha. pose proof (len_nonneg s). apply find_of_absent; [lia|lia|exact Ha].
Qed.

(** The first index that [found_in] names lies inside its range. *)
Lemma found_in_bounds sub s lo hi i :
  found_in sub s lo hi i ->
  0 <= i /\ lo <= i /\ i + Py.len sub <= hi /\ i + Py.len sub <= Py.len s.
Proof. intros (H1 & H2 & (H3 & H4 & _) & _). lia. Qed.

(** The guard: a text that holds 'frida-gadget' is left alone. *)
Lemma loader_skips content lib :
  Py.contains (lit "frida-gadget") content = true ->
  insert_frida_loader_content content lib = AlreadyInEntrypoint.
Proof. intros H. unfold insert_frida_loader_content. rewrite H. reflexivity. Qed.

(** A missing section marker. *)
Lemma loader_no_direct_methods content lib :
  Py.contains (lit "frida-gadget") content = false ->
  absent_in (lit "# direct methods") content 0 (Py.len content) \/
  absent_in (lit "# virtual methods") content 0 (Py.len content) ->
  insert_frida_loader_content content lib = NoDirectMethods.
Proof.
  intros Hg Habs. unfold insert_frida_loader_content. rewrite Hg. cbv zeta.
  destruct Habs as [Ha|Ha]; apply find0_of_absent in Ha; rewrite Ha.
  - reflexivity.
  - rewrite orb_true_r. reflexivity.
Qed.

(** An initializer with no end before the virtual methods. *)
Lemma loader_no_constructor_end content lib d v c :
  Py.contains (lit "frida-gadget") content = false ->
  found_in (lit "# direct methods") content 0 (Py.len content) d ->
  found_in (lit "# virtual methods") content 0 (Py.len content) v ->
  found_in (lit ".method static constructor <clinit>()V") content d v c ->
  absent_in (lit ".end method") content c v ->
  insert_frida_loader_content content lib = NoConstructorEnd.
Proof.
  intros Hg Hd Hv Hc He. unfold insert_frida_loader_content. rewrite Hg. cbv zeta.
  pose proof (found_in_bounds _ _ _ _ _ Hd) as Bd.
  pose proof (found_in_bounds _ _ _ _ _ Hv) as Bv.
  pose proof (found_in_bounds _ _ _ _ _ Hc) as Bc.
  pose proof (len_nonneg (lit "# virtual methods")) as Lv.
  apply find0_of_found in Hd as [-> Hd']. apply find0_of_found in Hv as [-> Hv'].
  rewrite Hd', Hv'. cbn [orb].
  apply find_of_found in Hc as [-> Hc']; [|lia|lia].
  rewrite Hc'. cbn [negb andb].
  apply find_of_absent in He; [|lia|lia]. rewrite He. reflexivity.
Qed.

(** An initializer with no prologue before its end. *)
Lemma loader_no_prologue content lib d v c e :
  Py.contains (lit "frida-gadget") content = false ->
  found_in (lit "# direct methods") content 0 (Py.len content) d ->
  found_in (lit "# virtual methods") content 0 (Py.len content) v ->
  found_in (lit ".method static constructor <clinit>()V") content d v c ->
  found_in (lit ".end method") content c v e ->
  absent_in (lit ".prologue") content c e ->
  insert_frida_loader_content content lib = NoPrologue.
Proof.
  intros Hg Hd Hv Hc He Hp. unfold insert_frida_loader_content. rewrite Hg. cbv zeta.
  pose proof (found_in_bounds _ _ _ _ _ Hd) as Bd.
  pose proof (found_in_bounds _ _ _ _ _ Hv) as Bv.
  pose proof (found_in_bounds _ _ _ _ _ Hc) as Bc.
  pose proof (found_in_bounds _ _ _ _ _ He) as Be.
  pose proof (len_nonneg (lit "# virtual methods")) as Lv.
  pose proof (len_nonneg (lit ".end method")) as Le.
  apply find0_of_found in Hd as [-> Hd']. apply find0_of_found in Hv as [-> Hv'].
  rewrite Hd', Hv'. cbn [orb].
  apply find_of_found in Hc as [-> Hc']; [|lia|lia].
  rewrite Hc'. cbn [negb andb].
  apply find_of_found in He as [-> He']; [|lia|lia].
  rewrite He'.
  apply find_of_absent in Hp; [|lia|lia]. rewrite Hp. reflexivity.
Qed.

(** An initializer with its end and its prologue: the partial code goes in
    ten characters past the start of the prologue marker. *)
Lemma loader_partial content lib d v c e p :
  Py.contains (lit "frida-gadget") content = false ->
  found_in (lit "# direct methods") content 0 (Py.len content) d ->
  found_in (lit "# virtual methods") content 0 (Py.len content) v ->
  found_in (lit ".method static constructor <clinit>()V") content d v c ->
  found_in (lit ".end method") content c v e ->
  found_in (lit ".prologue") content c e p ->
  insert_frida_loader_content content lib =
    NewContent (Py.slice content 0 (p + 10) ++ partial_injection_code lib
                ++ Py.slice_from content (p + 10)).
Proof.
  intros Hg Hd Hv Hc He Hp. unfold insert_frida_loader_content. rewrite Hg. cbv zeta.
  pose proof (found_in_bounds _ _ _ _ _ Hd) as Bd.
  pose proof (found_in_bounds _ _ _ _ _ Hv) as Bv.
  pose proof (found_in_bounds _ _ _ _ _ Hc) as Bc.
  pose proof (found_in_bounds _ _ _ _ _ He) as Be.
  pose proof (found_in_bounds _ _ _ _ _ Hp) as Bp.
  pose proof (len_nonneg (lit "# virtual methods")) as Lv.
  pose proof (len_nonneg (lit ".end method")) as Le.
  apply find0_of_found in Hd as [-> Hd']. apply find0_of_found in Hv as [-> Hv'].
  rewrite Hd', Hv'. cbn [orb].
  apply find_of_found in Hc as [-> Hc']; [|lia|lia].
  rewrite Hc'. cbn [negb andb].
  apply find_of_found in He as [-> He']; [|lia|lia].
  rewrite He'.
  apply find_of_found in Hp as [-> Hp']; [|lia|lia].
  rewrite Hp'.
  destruct (Z.ltb_spec (-1) p) as [_|Hneg]; [|lia].
  change (Py.len (lit ".prologue")) with 9.
  replace (p + 9 + 1) with (p + 10) by lia. reflexivity.
Qed.

(** No initializer between the markers: the full code goes in seventeen
    characters past the start of the direct-methods marker. *)
Lemma loader_full content lib d v :
  Py.contains (lit "frida-gadget") content = false ->
  found_in (lit "# direct methods") content 0 (Py.len content) d ->
  found_in (lit "# virtual methods") content 0 (Py.len content) v ->
  absent_in (lit ".method static constructor <clinit>()V") content d v ->
  insert_frida_loader_content content lib =
    NewContent (Py.slice content 0 (d + 17) ++ full_injection_code lib
                ++ Py.slice_from content (d + 17)).
Proof.
  intros Hg Hd Hv Hc. unfold insert_frida_loader_content. rewrite Hg. cbv zeta.
  pose proof (found_in_bounds _ _ _ _ _ Hd) as Bd.
  pose proof (found_in_bounds _ _ _ _ _ Hv) as Bv.
  pose proof (len_nonneg (lit "# virtual methods")) as Lv.
  apply find0_of_found in Hd as [-> Hd']. apply find0_of_found in Hv as [-> Hv'].
  rewrite Hd', Hv'. cbn [orb].
  apply find_of_absent in Hc; [|lia|lia]. rewrite Hc.
  change (-1 =? -1) with true. cbn [negb andb].
  change (Py.len (lit "# direct methods")) with 16.
  replace (d + 16 + 1) with (d + 17) by lia. reflexivity.
Qed.

(** Every text falls under one of the six cases above. *)
Lemma loader_cases content :
  Py.contains (lit "frida-gadget") content = true \/
  (Py.contains (lit "frida-gadget") content = false /\
   (structural_defect content NoDirectMethods \/
    structural_defect content NoConstructorEnd \/
    structural_defect content NoPrologue \/
    (exists d v c e p,
       found_in (lit "# direct methods") content 0 (Py.len content) d /\
       found_in (lit "# virtual methods") content 0 (Py.len content) v /\
       found_in (lit ".method static constructor <clinit>()V") content d v c /\
       found_in (lit ".end method") content c v e /\
       found_in (lit ".prologue") content c e p) \/
    (exists d v,
       found_in (lit "# direct methods") content 0 (Py.len content) d /\
       found_in (lit "# virtual methods") content 0 (Py.len content) v /\
       absent_in (lit ".method static constructor <clinit>()V") content d v))).
Proof.
  destruct (Py.contains (lit "frida-gadget") content) eqn:Hg; [left; reflexivity|].
  right. split; [reflexivity|].
  destruct (find0_bounds content) as [H0 Hn].
  destruct (find_cases content (lit "# direct methods") 0 (Py.len content) H0 Hn)
    as [[_ Hd]|[_ Hd]].
  { left. constructor. left. exact Hd. }
  destruct (find_cases content (lit "# virtual methods") 0 (Py.len content) H0 Hn)
    as [[_ Hv]|[_ Hv]].
  { left. constructor. right. exact Hv. }
  pose proof (found_in_bounds _ _ _ _ _ Hd) as Bd.
  pose proof (found_in_bounds _ _ _ _ _ Hv) as Bv.
  pose proof (len_nonneg (lit "# virtual methods")) as Lv.
  pose proof (len_nonneg (lit ".end method")) as Le.
  set (d := Py.find content (lit "# direct methods") 0 (Py.len content)) in *.
  set (v := Py.find content (lit "# virtual methods") 0 (Py.len content)) in *.
  destruct (find_cases content (lit ".method static constructor <clinit>()V") d v)
    as [[_ Hc]|[_ Hc]]; [lia|lia| |].
  { do 4 right. exists d, v. auto. }
  pose proof (found_in_bounds _ _ _ _ _ Hc) as Bc.
  set (c := Py.find content (lit ".method static constructor <clinit>()V") d v) in *.
  destruct (find_cases content (lit ".end method") c v) as [[_ He]|[_ He]]; [lia|lia| |].
  { right. left. econstructor; eassumption. }
  pose proof (found_in_bounds _ _ _ _ _ He) as Be.
  set (e := Py.find content (lit ".end method") c v) in *.
  destruct (find_cases content (lit ".prologue") c e) as [[_ Hp]|[_ Hp]]; [lia|lia| |].
  { right. right. left. econstructor; eassumption. }
  right. right. right. left.
  exists d, v, c, e, (Py.find content (lit ".prologue") c e). auto.
Qed.

End Loader.

(** ** [insert_frida_loader]: the claims about the class text *)

Section LoaderClaims.

Import Patcher.

Implicit Types (content lib : str) (d v c e p : Z).

Lemma slice_to_app (x y : str) : Py.slice (x ++ y) 0 (Py.len x) = x.
Proof.
  rewrite slice_to by apply len_nonneg.
  unfold Py.len. rewrite Nat2Z.id. apply take_app_length.
Qed.

Lemma slice_from_app (x y : str) : Py.slice_from (x ++ y) (Py.len x) = y.
Proof.
  rewrite slice_from_drop by apply len_nonneg.
  unfold Py.len. rewrite Nat2Z.id. apply drop_app_length.
Qed.

(** A position past the end of the text: the first part is the whole
    text and nothing is left after it. *)
Lemma slice_to_past (x : str) (i : Z) : Py.len x <= i -> Py.slice x 0 i = x.
Proof.
  intros H. pose proof (len_nonneg x). rewrite slice_to by lia.
  apply take_ge. unfold Py.len in *. lia.
Qed.

Lemma slice_from_past (x : str) (i : Z) : Py.len x <= i -> Py.slice_from x i = [].
Proof.
  intros H. pose proof (len_nonneg x). rewrite slice_from_drop by lia.
  apply drop_ge. unfold Py.len in *. lia.
Qed.

(** The method on a file that holds [content]: it returns what the block's
    outcome says, and the file then holds the text that outcome leaves. *)
Lemma insert_frida_loader_on_file (fs : gmap str node) (path content lib : str) :
  fs !! path = Some (File content) ->
  insert_frida_loader path lib fs =
    (Return (returned (insert_frida_loader_content content lib)),
     <[path := File (text_after content (insert_frida_loader_content content lib))]> fs).
Proof.
  intros Hfile. unfold insert_frida_loader, bind, Os.read_text. rewrite Hfile.
  destruct (insert_frida_loader_content content lib) as [| | | |new] eqn:Ho;
    cbn [returned text_after];
    try (unfold ret; rewrite insert_id by exact Hfile; reflexivity).
  unfold Os.write_text. rewrite Hfile. reflexivity.
Qed.

End LoaderClaims.

(** ** Claims C2 and C3: where the snippets go *)

Section SnippetPlacement.

Import Patcher.

Implicit Types (content lib : str) (d v c e p : Z).

(** C2, as amended.  For every class text that does not already hold the
    words frida-gadget, and holds both section markers, a static
    initializer between them with its [.end method], and a [.prologue]
    inside it: the block ends with new content, which is the original text
    up to and including the prologue marker and the one character after it
    (its line break), then the partial snippet (a [const-string] of the
    library name into [v0] and the static [System.loadLibrary] call on
    [v0]), then the rest of the original text, unchanged. *)
Theorem partial_snippet_after_prologue content lib d v c e p :
  Py.contains (lit "frida-gadget") content = false ->
  found_in (lit "# direct methods") content 0 (Py.len content) d ->
  found_in (lit "# virtual methods") content 0 (Py.len content) v ->
  found_in (lit ".method static constructor <clinit>()V") content d v c ->
  found_in (lit ".end method") content c v e ->
  found_in (lit ".prologue") content c e p ->
  exists (before : str) (ch : ascii) (after : str),
    content = before ++ lit ".prologue" ++ [ch] ++ after /\
    Py.len before = p /\
    insert_frida_loader_content content lib =
      NewContent (before ++ lit ".prologue" ++ [ch]
                  ++ partial_snippet lib ++ after).
Proof.
  intros Hg Hd Hv Hc He Hp.
  rewrite (loader_partial content lib d v c e p Hg Hd Hv Hc He Hp).
  rewrite partial_injection_code_snippet.
  pose proof (found_in_bounds _ _ _ _ _ He) as Be.
  pose proof (found_in_bounds _ _ _ _ _ Hp) as Bp.
  destruct Hp as (_ & _ & Hocc & _).
  apply occurs_at_split in Hocc as (before & rest & Hsplit & Hlen).
  change (Py.len (lit ".prologue")) with 9 in Bp.
  change (Py.len (lit ".end method")) with 11 in Be.
  destruct rest as [|ch after].
  { exfalso. rewrite Hsplit, !len_app in Be.
    change (Py.len (lit ".prologue")) with 9 in Be.
    change (Py.len []) with 0 in Be. lia. }
  exists before, ch, after. split; [exact Hsplit|]. split; [exact Hlen|].
  f_equal.
  assert (Hcut : p + 10 = Py.len (before ++ lit ".prologue" ++ [ch])).
  { rewrite !len_app. change (Py.len (lit ".prologue")) with 9.
    change (Py.len [ch]) with 1. lia. }
  assert (Hs : content = (before ++ lit ".prologue" ++ [ch]) ++ after).
  { rewrite Hsplit. rewrite <- !app_assoc. reflexivity. }
  rewrite Hcut. rewrite Hs at 1 2.
  rewrite slice_to_app, slice_from_app. rewrite <- !app_assoc. reflexivity.
Qed.

(** C3, as amended.  For every class text that does not already hold the
    words frida-gadget, and holds both section markers with no static
    initializer between them: injecting the library name mylib gives the
    original text up to and including the direct-methods marker and the
    one character after it (nothing, when the marker ends the text), then
    the full snippet, then the rest of the original text, unchanged. *)
Theorem full_snippet_after_direct_methods content d v :
  Py.contains (lit "frida-gadget") content = false ->
  found_in (lit "# direct methods") content 0 (Py.len content) d ->
  found_in (lit "# virtual methods") content 0 (Py.len content) v ->
  absent_in (lit ".method static constructor <clinit>()V") content d v ->
  exists (before rest : str),
    content = before ++ lit "# direct methods" ++ rest /\
    Py.len before = d /\
    insert_frida_loader_content content (lit "mylib") =
      NewContent (before ++ lit "# direct methods" ++ take 1 rest
                  ++ full_snippet (lit "mylib") ++ drop 1 rest).
Proof.
  intros Hg Hd Hv Hc.
  rewrite (loader_full content (lit "mylib") d v Hg Hd Hv Hc).
  rewrite full_injection_code_snippet.
  destruct Hd as (_ & _ & Hocc & _).
  apply occurs_at_split in Hocc as (before & rest & Hsplit & Hlen).
  exists before, rest. split; [exact Hsplit|]. split; [exact Hlen|].
  f_equal.
  destruct rest as [|ch after].
  - assert (Hpast : Py.len content <= d + 17).
    { rewrite Hsplit, !len_app. change (Py.len (lit "# direct methods")) with 16.
      change (Py.len []) with 0. lia. }
    rewrite slice_to_past, slice_from_past by exact Hpast.
    rewrite Hsplit. cbn [take drop]. rewrite <- !app_assoc. reflexivity.
  - assert (Hcut : d + 17 = Py.len (before ++ lit "# direct methods" ++ [ch])).
    { rewrite !len_app. change (Py.len (lit "# direct methods")) with 16.
      change (Py.len [ch]) with 1. lia. }
    assert (Hs : content = (before ++ lit "# direct methods" ++ [ch]) ++ after).
    { rewrite Hsplit. rewrite <- !app_assoc. reflexivity. }
    rewrite Hcut. rewrite Hs at 1 2.
    rewrite slice_to_app, slice_from_app. cbn [take drop].
    rewrite <- !app_assoc. reflexivity.
Qed.

End SnippetPlacement.

(** ** Claims C2 and C3 on the sample texts *)

Lemma partial_snippet_after_prologue_witness :
  exists (before : str) (ch : ascii) (after : str),
    Samples.with_initializer = before ++ lit ".prologue" ++ [ch] ++ after /\
    Py.len before = 93 /\
    Patcher.insert_frida_loader_content Samples.with_initializer (lit "mylib") =
      Patcher.NewContent (before ++ lit ".prologue" ++ [ch]
                          ++ partial_snippet (lit "mylib") ++ after).
Proof.
  apply (partial_snippet_after_prologue
           Samples.with_initializer (lit "mylib") 33 145 50 133 93).
  - vm_compute. reflexivity.
  - found_by_find.
  - found_by_find.
  - found_by_find.
  - found_by_find.
  - found_by_find.
Defined.

(** C2 as first stated fails: this class has the two markers, the
    initializer, its end and its prologue, and nothing is inserted, because
    its [.source] line names frida-gadget. *)
Lemma partial_snippet_not_inserted_when_gadget_named :
  let content := Samples.with_initializer_mentioning_gadget in
  found_in (lit "# direct methods") content 0 (Py.len content) 61 /\
  found_in (lit "# virtual methods") content 0 (Py.len content) 173 /\
  found_in (lit ".method static constructor <clinit>()V") content 61 173 78 /\
  found_in (lit ".end method") content 78 173 161 /\
  found_in (lit ".prologue") content 78 161 121 /\
  Patcher.insert_frida_loader_content content (lit "mylib") = Patcher.AlreadyInEntrypoint /\
  Patcher.text_after content (Patcher.insert_frida_loader_content content (lit "mylib"))
    = content.
Proof.
  cbv zeta. do 5 (split; [found_by_find|]). split; vm_compute; reflexivity.
Qed.

Lemma full_snippet_after_direct_methods_witness :
  exists (before rest : str),
    Samples.without_initializer = before ++ lit "# direct methods" ++ rest /\
    Py.len before = 33 /\
    Patcher.insert_frida_loader_content Samples.without_initializer (lit "mylib") =
      Patcher.NewContent (before ++ lit "# direct methods" ++ take 1 rest
                          ++ full_snippet (lit "mylib") ++ drop 1 rest).
Proof.
  apply (full_snippet_after_direct_methods Samples.without_initializer 33 115).
  - vm_compute. reflexivity.
  - found_by_find.
  - found_by_find.
  - absent_by_find.
Defined.

(** C3 as first stated fails: this class has the two markers and no
    static initializer, and nothing is inserted, because its [.source] line
    names frida-gadget. *)
Lemma full_snippet_not_inserted_when_gadget_named :
  let content := Samples.without_initializer_mentioning_gadget in
  found_in (lit "# direct methods") content 0 (Py.len content) 61 /\
  found_in (lit "# virtual methods") content 0 (Py.len content) 143 /\
  absent_in (lit ".method static constructor <clinit>()V") content 61 143 /\
  Patcher.insert_frida_loader_content content (lit "mylib") = Patcher.AlreadyInEntrypoint /\
  Patcher.text_after content (Patcher.insert_frida_loader_content content (lit "mylib"))
    = content.
Proof.
  cbv zeta. do 2 (split; [found_by_find|]). split; [absent_by_find|].
  split; vm_compute; reflexivity.
Qed.

(** ** Claim C4: structural failures *)

Section StructuralFailures.

Import Patcher.

Implicit Types (content lib : str).

(** The warning that a structural defect leads to, when the guard lets the
    text through. *)
Lemma structural_defect_outcome content lib warning :
  Py.contains (lit "frida-gadget") content = false ->
  structural_defect content warning ->
  insert_frida_loader_content content lib = warning.
Proof.
  intros Hg Hdef. destruct Hdef.
  - apply loader_no_direct_methods; assumption.
  - eapply loader_no_constructor_end; eassumption.
  - eapply loader_no_prologue; eassumption.
Qed.

Lemma structural_defect_warning content warning :
  structural_defect content warning -> returned warning = false.
Proof. intros H. destruct H; reflexivity. Qed.

(** C4.  Whenever a section marker is missing, or the static initializer
    found between the markers has no [.end method] before the virtual
    methods, or it has no [.prologue] before its end: the method returns
    [False] and writes nothing (the text of the file stays as it was).
    Unless the text holds the words frida-gadget, which ends the call
    earlier (also with [False] and nothing written), the block ends with
    the warning of that defect. *)
Theorem structural_defect_fails content lib warning :
  structural_defect content warning ->
  returned (insert_frida_loader_content content lib) = false /\
  text_after content (insert_frida_loader_content content lib) = content /\
  (Py.contains (lit "frida-gadget") content = false ->
   insert_frida_loader_content content lib = warning) /\
  (forall (fs : gmap str node) (path : str),
     fs !! path = Some (File content) ->
     insert_frida_loader path lib fs = (Return false, fs)).
Proof.
  intros Hdef.
  assert (Hcases : insert_frida_loader_content content lib = AlreadyInEntrypoint \/
                   insert_frida_loader_content content lib = warning).
  { destruct (Py.contains (lit "frida-gadget") content) eqn:Hg.
    - left. apply loader_skips. exact Hg.
    - right. apply structural_defect_outcome; assumption. }
  assert (Hret : returned (insert_frida_loader_content content lib) = false).
  { destruct Hcases as [-> | ->]; [reflexivity|].
    eapply structural_defect_warning. exact Hdef. }
  assert (Htext : text_after content (insert_frida_loader_content content lib) = content).
  { destruct (insert_frida_loader_content content lib); try reflexivity.
    discriminate Hret. }
  split; [exact Hret|]. split; [exact Htext|]. split.
  - intros Hg. apply structural_defect_outcome; assumption.
  - intros fs path Hfile.
    rewrite (insert_frida_loader_on_file fs path content lib Hfile).
    rewrite Hret, Htext. rewrite insert_id by exact Hfile. reflexivity.
Qed.

End StructuralFailures.

Lemma structural_defect_fails_witness :
  Patcher.returned
    (Patcher.insert_frida_loader_content Samples.initializer_no_prologue (lit "mylib")) = false /\
  Patcher.text_after Samples.initializer_no_prologue
    (Patcher.insert_frida_loader_content Samples.initializer_no_prologue (lit "mylib"))
    = Samples.initializer_no_prologue /\
  (Py.contains (lit "frida-gadget") Samples.initializer_no_prologue = false ->
   Patcher.insert_frida_loader_content Samples.initializer_no_prologue (lit "mylib")
     = Patcher.NoPrologue) /\
  (forall (fs : gmap str node) (path : str),
     fs !! path = Some (File Samples.initializer_no_prologue) ->
     Patcher.insert_frida_loader path (lit "mylib") fs = (Return false, fs)).
Proof.
  apply (structural_defect_fails Samples.initializer_no_prologue (lit "mylib")
           Patcher.NoPrologue).
  apply (initializer_without_prologue _ 0 84 17 72).
  - found_by_find.
  - found_by_find.
  - found_by_find.
  - found_by_find.
  - absent_by_find.
Defined.

(** The other two defects, on their sample texts. *)
Example structural_defect_samples :
  structural_defect Samples.no_section_markers Patcher.NoDirectMethods /\
  structural_defect Samples.initializer_not_ended Patcher.NoConstructorEnd.
Proof.
  split.
  - constructor. left. absent_by_find.
  - apply (unterminated_initializer _ 0 70 17).
    + found_by_find.
    + found_by_find.
    + found_by_find.
    + absent_by_find.
Qed.

(** ** Claim C1: a second call *)

Section SecondCall.

Import Patcher.

Implicit Types (content lib : str).

(** New content holds whatever the library name holds. *)
Lemma new_content_holds_name content lib (sub new : str) :
  insert_frida_loader_content content lib = NewContent new ->
  Py.contains sub lib = true ->
  Py.contains sub new = true.
Proof.
  intros Hnew Hsub.
  destruct (loader_cases content) as [Hg|[Hg Hcase]].
  { rewrite (loader_skips content lib Hg) in Hnew. discriminate. }
  destruct Hcase as [Hdef|[Hdef|[Hdef|[Hpart|Hfull]]]];
    try (rewrite (structural_defect_outcome content lib _ Hg Hdef) in Hnew;
         discriminate).
  - destruct Hpart as (d & v & c & e & p & Hd & Hv & Hc & He & Hp).
    pose proof (loader_partial content lib d v c e p Hg Hd Hv Hc He Hp) as Hrun.
    assert (E : new = Py.slice content 0 (p + 10) ++ partial_injection_code lib
                      ++ Py.slice_from content (p + 10)) by congruence.
    rewrite E. apply contains_embed.
    rewrite partial_injection_code_snippet.
    apply partial_snippet_holds_name. exact Hsub.
  - destruct Hfull as (d & v & Hd & Hv & Hc).
    pose proof (loader_full content lib d v Hg Hd Hv Hc) as Hrun.
    assert (E : new = Py.slice content 0 (d + 17) ++ full_injection_code lib
                      ++ Py.slice_from content (d + 17)) by congruence.
    rewrite E. apply contains_embed.
    rewrite full_injection_code_snippet.
    apply full_snippet_holds_name. exact Hsub.
Qed.

(** C1, as amended.  For every class text and every library name in which
    the words frida-gadget occur (the default name is one): a second call
    with the same name leaves the text as the first call left it and
    returns [False]; and when the first call inserted a snippet or was
    itself skipped (it did not end in a structural failure), the second
    call ends as "already in the entrypoint". *)
Theorem second_call_is_skipped content lib :
  Py.contains (lit "frida-gadget") lib = true ->
  let first := insert_frida_loader_content content lib in
  let text1 := text_after content first in
  let second := insert_frida_loader_content text1 lib in
  text_after text1 second = text1 /\
  returned second = false /\
  (returned first = true \/ first = AlreadyInEntrypoint ->
   second = AlreadyInEntrypoint) /\
  (forall (fs : gmap str node) (path : str),
     fs !! path = Some (File content) ->
     exists fs1,
       insert_frida_loader path lib fs = (Return (returned first), fs1) /\
       fs1 !! path = Some (File text1) /\
       insert_frida_loader path lib fs1 = (Return false, fs1)).
Proof.
  intros Hname first text1 second.
  assert (Hsecond : (exists new, first = NewContent new /\ second = AlreadyInEntrypoint)
                    \/ (returned first = false /\ text1 = content /\ second = first)).
  { subst second text1. destruct first as [| | | |new] eqn:Hfirst; cbn [text_after returned].
    - right. auto.
    - right. auto.
    - right. auto.
    - right. auto.
    - left. exists new. split; [reflexivity|].
      apply loader_skips.
      eapply new_content_holds_name; [exact Hfirst | exact Hname]. }
  assert (Htext : text_after text1 second = text1).
  { destruct Hsecond as [(new & _ & ->)|(Hret & Ht & Hs)]; [reflexivity|].
    rewrite Hs, Ht. destruct first; try reflexivity. discriminate Hret. }
  assert (Hret2 : returned second = false).
  { destruct Hsecond as [(new & _ & ->)|(Hret & _ & ->)]; [reflexivity|exact Hret]. }
  split; [exact Htext|]. split; [exact Hret2|]. split.
  - intros [Hinj|Hskip].
    + destruct Hsecond as [(new & _ & Hs)|(Hret & _)]; [exact Hs|congruence].
    + destruct Hsecond as [(new & Hn & Hs)|(_ & _ & Hs)]; [exact Hs|].
      rewrite Hs. exact Hskip.
  - intros fs path Hfile.
    exists (<[path := File text1]> fs).
    split; [apply insert_frida_loader_on_file; exact Hfile|].
    split; [apply lookup_insert_eq|].
    rewrite (insert_frida_loader_on_file _ path text1 lib (lookup_insert_eq _ _ _)).
    fold second. rewrite Htext, Hret2. rewrite insert_insert_eq. reflexivity.
Qed.

End SecondCall.

Lemma second_call_is_skipped_witness :
  let content := Samples.without_initializer in
  let lib := Patcher.default_frida_lib_name in
  let first := Patcher.insert_frida_loader_content content lib in
  let text1 := Patcher.text_after content first in
  let second := Patcher.insert_frida_loader_content text1 lib in
  Patcher.text_after text1 second = text1 /\
  Patcher.returned second = false /\
  (Patcher.returned first = true \/ first = Patcher.AlreadyInEntrypoint ->
   second = Patcher.AlreadyInEntrypoint) /\
  (forall (fs : gmap str node) (path : str),
     fs !! path = Some (File content) ->
     exists fs1,
       Patcher.insert_frida_loader path lib fs = (Return (Patcher.returned first), fs1) /\
       fs1 !! path = Some (File text1) /\
       Patcher.insert_frida_loader path lib fs1 = (Return false, fs1)).
Proof.
  apply (second_call_is_skipped Samples.without_initializer Patcher.default_frida_lib_name).
  vm_compute. reflexivity.
Defined.

(** C1 as first stated fails twice over.  A text with no section markers
    is refused by both calls, so the second does not end as "already in
    the entrypoint"; and with the library name mylib the second call
    inserts a second snippet, because the guard looks for the words
    frida-gadget and not for the name. *)
Lemma second_call_not_always_skipped :
  ~ second_call_skips Samples.no_section_markers Patcher.default_frida_lib_name /\
  ~ second_call_skips Samples.without_initializer (lit "mylib").
Proof.
  split; intros [Hskip Hsame]; vm_compute in Hskip; discriminate Hskip.
Qed.

(** ** Claim C5: the architecture of a payload name *)

Section Architecture.

Import Patcher.

(** A name that holds arm64 holds arm and holds 64. *)
Lemma arm64_holds_arm_and_64 (name : str) :
  Py.contains (lit "arm64") name = true ->
  Py.contains (lit "arm") name = true /\ Py.contains (lit "64") name = true.
Proof.
  intros H. split.
  - apply (contains_part (lit "arm64") name [] (lit "64") (lit "arm"));
      [reflexivity | exact H].
  - apply (contains_part (lit "arm64") name (lit "arm") [] (lit "64"));
      [reflexivity | exact H].
Qed.

(** C5, as amended.  For every payload file name, [get_arch_by_gadget]
    returns the architecture of this rule, the first match winning:
    holds arm64 -> arm64; holds arm and not 64 -> arm32; holds i386, or x86
    without 64 -> x86; holds x86_64 -> x86_64; otherwise unknown ([None]).
    The last two cases stand in the other order than in the rule of the
    specification. *)
Theorem get_arch_by_gadget_follows_amended_rule (name : str) :
  get_arch_by_gadget name = arch_constant <$> amended_architecture_rule name.
Proof.
  unfold get_arch_by_gadget, amended_architecture_rule.
  pose proof (arm64_holds_arm_and_64 name) as Harm64.
  destruct (Py.contains (lit "arm64") name).
  - destruct (Harm64 eq_refl) as [-> ->]. reflexivity.
  - clear Harm64.
    destruct (Py.contains (lit "arm") name), (Py.contains (lit "64") name),
      (Py.contains (lit "i386") name), (Py.contains (lit "x86") name),
      (Py.contains (lit "x86_64") name); reflexivity.
Qed.

(** The rule of the specification gives the same answer for every name
    that does not hold both i386 and x86_64. *)
Lemma amended_rule_is_spec_rule (name : str) :
  Py.contains (lit "i386") name && Py.contains (lit "x86_64") name = false ->
  amended_architecture_rule name = spec_architecture_rule name.
Proof.
  unfold amended_architecture_rule, spec_architecture_rule. intros H.
  assert (H64 : Py.contains (lit "x86_64") name = true ->
                Py.contains (lit "64") name = true).
  { apply (contains_part (lit "x86_64") name (lit "x86_") [] (lit "64")).
    reflexivity. }
  destruct (Py.contains (lit "arm64") name); [reflexivity|].
  destruct (Py.contains (lit "x86_64") name).
  - rewrite (H64 eq_refl). rewrite andb_true_r in H. rewrite H.
    rewrite !andb_false_r. reflexivity.
  - destruct (Py.contains (lit "arm") name && negb (Py.contains (lit "64") name));
      reflexivity.
Qed.

End Architecture.

(** C5 as first stated fails: for a path that holds both i386 and x86_64
    the rule of the specification says x86_64, and the code answers x86. *)
Lemma get_arch_by_gadget_departs_from_spec_rule :
  spec_architecture_rule (lit "i386/frida-gadget-android-x86_64.so") = Some x86_64 /\
  Patcher.get_arch_by_gadget (lit "i386/frida-gadget-android-x86_64.so")
    = Some Patcher.ARCH_X86 /\
  Patcher.get_arch_by_gadget (lit "i386/frida-gadget-android-x86_64.so")
    <> arch_constant <$> spec_architecture_rule (lit "i386/frida-gadget-android-x86_64.so").
Proof.
  split; [vm_compute; reflexivity|]. split; [vm_compute; reflexivity|].
  vm_compute. discriminate.
Qed.

(** ** Claim C8: the permission in the manifest *)

Section Manifest.

Import Patcher.

Implicit Types (content permission : str).

(** The method on a manifest file that holds [content]. *)
Lemma inject_permission_manifest_on_file (fs : gmap str node) (base_dir content permission : str) :
  fs !! Py.join base_dir (lit "AndroidManifest.xml") = Some (File content) ->
  inject_permission_manifest base_dir permission fs =
    match inject_permission_manifest_content content permission with
    | None => (Return (Some false), fs)
    | Some new_manifest =>
        (Return None, <[Py.join base_dir (lit "AndroidManifest.xml") := File new_manifest]> fs)
    end.
Proof.
  intros Hfile. unfold inject_permission_manifest, bind, Os.read_text.
  rewrite Hfile.
  destruct (inject_permission_manifest_content content permission); [|reflexivity].
  unfold Os.write_text. rewrite Hfile. reflexivity.
Qed.

(** C8.  When the manifest text holds the opening [<manifest ] and a [>]
    after it, the new text is the original up to and including that first
    [>], then one line break, four spaces and the [uses-permission]
    declaration of the permission, then the rest of the original,
    unchanged; the method writes it and returns nothing.  When the text
    has no [<manifest ], or no [>] after it, the method returns [False] and
    the manifest file is not written. *)
Theorem permission_declared_after_root_tag content permission :
  (forall m e : Z,
     found_in (lit "<manifest ") content 0 (Py.len content) m ->
     found_in (lit ">") content m (Py.len content) e ->
     exists before after : str,
       content = before ++ lit ">" ++ after /\
       Py.len before = e /\
       inject_permission_manifest_content content permission =
         Some (before ++ lit ">" ++ [newline] ++ lit "    "
               ++ lit "<uses-permission android:name=" ++ [dquote] ++ permission
               ++ [dquote] ++ lit "/>" ++ after) /\
       forall (fs : gmap str node) (base_dir : str),
         fs !! Py.join base_dir (lit "AndroidManifest.xml") = Some (File content) ->
         inject_permission_manifest base_dir permission fs =
           (Return None,
            <[Py.join base_dir (lit "AndroidManifest.xml") :=
                File (before ++ lit ">" ++ [newline] ++ lit "    "
                      ++ lit "<uses-permission android:name=" ++ [dquote] ++ permission
                      ++ [dquote] ++ lit "/>" ++ after)]> fs)) /\
  (absent_in (lit "<manifest ") content 0 (Py.len content) \/
   (exists m : Z,
      found_in (lit "<manifest ") content 0 (Py.len content) m /\
      absent_in (lit ">") content m (Py.len content)) ->
   inject_permission_manifest_content content permission = None /\
   forall (fs : gmap str node) (base_dir : str),
     fs !! Py.join base_dir (lit "AndroidManifest.xml") = Some (File content) ->
     inject_permission_manifest base_dir permission fs = (Return (Some false), fs)).
Proof.
  split.
  - intros m e Hm He.
    pose proof (found_in_bounds _ _ _ _ _ Hm) as Bm.
    pose proof (len_nonneg content) as Ln.
    assert (Hrun : inject_permission_manifest_content content permission =
                   Some (Py.slice content 0 (e + 1) ++ [newline] ++ lit "    "
                         ++ permission_tag permission ++ Py.slice_from content (e + 1))).
    { unfold inject_permission_manifest_content, Py.find_from.
      destruct (find0_of_found _ _ _ Hm) as [-> ->].
      destruct (find_of_found content (lit ">") m (Py.len content) e) as [-> ->];
        [lia | lia | exact He |]. reflexivity. }
    destruct He as (_ & _ & Hocc & _).
    apply occurs_at_split in Hocc as (before & after & Hsplit & Hlen).
    exists before, after. split; [exact Hsplit|]. split; [exact Hlen|].
    assert (Hnew : inject_permission_manifest_content content permission =
              Some (before ++ lit ">" ++ [newline] ++ lit "    "
                    ++ lit "<uses-permission android:name=" ++ [dquote] ++ permission
                    ++ [dquote] ++ lit "/>" ++ after)).
    { rewrite Hrun. f_equal.
      assert (Hcut : e + 1 = Py.len (before ++ lit ">")).
      { rewrite len_app. change (Py.len (lit ">")) with 1. lia. }
      assert (Hs : content = (before ++ lit ">") ++ after).
      { rewrite Hsplit, <- app_assoc. reflexivity. }
      rewrite Hcut. rewrite Hs at 1 2. rewrite slice_to_app, slice_from_app.
      unfold permission_tag. rewrite <- !app_assoc. reflexivity. }
    split; [exact Hnew|]. intros fs base_dir Hfile.
    rewrite (inject_permission_manifest_on_file fs base_dir content permission Hfile).
    rewrite Hnew. reflexivity.
  - intros Hbad.
    assert (Hnone : inject_permission_manifest_content content permission = None).
    { unfold inject_permission_manifest_content, Py.find_from.
      destruct Hbad as [Habs|(m & Hm & Habs)].
      - rewrite (find0_of_absent _ _ Habs). reflexivity.
      - pose proof (found_in_bounds _ _ _ _ _ Hm) as Bm.
        pose proof (len_nonneg content) as Ln.
        destruct (find0_of_found _ _ _ Hm) as [-> ->].
        rewrite (find_of_absent content (lit ">") m (Py.len content)); [reflexivity|lia|lia|exact Habs]. }
    split; [exact Hnone|]. intros fs base_dir Hfile.
    rewrite (inject_permission_manifest_on_file fs base_dir content permission Hfile).
    rewrite Hnone. reflexivity.
Qed.

End Manifest.

(** The theorem on the sample manifests: the declaration goes in after
    the root tag of the first, and the other two are refused. *)
Lemma permission_declared_after_root_tag_witness :
  (exists before after : str,
     ManifestSamples.manifest = before ++ lit ">" ++ after /\
     Py.len before = 70 /\
     Patcher.inject_permission_manifest_content
       ManifestSamples.manifest Patcher.INTERNET_PERMISSION =
       Some (before ++ lit ">" ++ [newline] ++ lit "    "
             ++ lit "<uses-permission android:name=" ++ [dquote]
             ++ Patcher.INTERNET_PERMISSION ++ [dquote] ++ lit "/>" ++ after)) /\
  Patcher.inject_permission_manifest_content
    ManifestSamples.no_root_tag Patcher.INTERNET_PERMISSION = None /\
  Patcher.inject_permission_manifest_content
    ManifestSamples.unclosed_root_tag Patcher.INTERNET_PERMISSION = None.
Proof.
  split; [|split].
  - destruct (proj1 (permission_declared_after_root_tag
                       ManifestSamples.manifest Patcher.INTERNET_PERMISSION) 39 70)
      as (before & after & H1 & H2 & H3 & _).
    + found_by_find.
    + found_by_find.
    + exists before, after. auto.
  - apply (proj2 (permission_declared_after_root_tag
                    ManifestSamples.no_root_tag Patcher.INTERNET_PERMISSION)).
    left. absent_by_find.
  - apply (proj2 (permission_declared_after_root_tag
                    ManifestSamples.unclosed_root_tag Patcher.INTERNET_PERMISSION)).
    right. exists 22. split; [found_by_find | absent_by_find].
Defined.

(** ** Claim C6: the directories of an architecture *)

Section Directories.

Import Patcher.

Implicit Types (fs : gmap str node) (p base : str).

Lemma make_if_absent_run p fs :
  make_if_absent p fs =
    match fs !! p with
    | Some (File _) => (Raise FileExistsError, fs)
    | _ => (Return tt, <[p := Dir]> fs)
    end.
Proof.
  unfold make_if_absent, bind, Os.isdir, Os.makedirs, ret.
  destruct (fs !! p) as [[content|]|] eqn:E; cbn [negb]; rewrite ?E; try reflexivity.
  rewrite insert_id by exact E. reflexivity.
Qed.

(** The library root ends with a slash, so joining a name to it appends
    the name. *)
Lemma libs_path_last base : last (Py.join base (lit "lib/")) = Some "/"%char.
Proof.
  unfold Py.join. change (Py.starts_with (lit "/") (lit "lib/")) with false. cbv iota.
  destruct (last base) as [c|] eqn:E; [|reflexivity].
  destruct (Ascii.eqb c "/").
  - change (lit "lib/") with (lit "lib" ++ ["/"%char]).
    rewrite app_assoc. apply last_snoc.
  - change (lit "/" ++ lit "lib/") with (lit "/lib" ++ ["/"%char]).
    rewrite app_assoc. apply last_snoc.
Qed.

Lemma join_after_slash (a b : str) :
  last a = Some "/"%char -> Py.starts_with (lit "/") b = false ->
  Py.join a b = a ++ b.
Proof.
  intros Ha Hb. unfold Py.join. rewrite Hb, Ha. reflexivity.
Qed.

Lemma app_name_ne (libs n1 n2 : str) : n1 <> n2 -> libs ++ n1 <> libs ++ n2.
Proof. intros Hne Heq. apply Hne. eapply app_inv_head. exact Heq. Qed.

(** One directory under the root. *)
Lemma plan_one fs (libs name : str) :
  name <> [] ->
  planned
    (match fs !! libs with
     | Some (File _) => (Raise FileExistsError, fs)
     | _ =>
         match <[libs := Dir]> fs !! (libs ++ name) with
         | Some (File _) => (Raise FileExistsError, <[libs := Dir]> fs)
         | _ => (Return [libs ++ name], <[libs ++ name := Dir]> (<[libs := Dir]> fs))
         end
     end) fs libs [name].
Proof.
  intros Hname.
  assert (Hne : libs <> libs ++ name).
  { intros E. apply Hname. apply (app_inv_head libs). rewrite app_nil_r. symmetry. exact E. }
  destruct (fs !! libs) as [[c0|]|] eqn:E0.
  { split; [reflexivity|]. exists libs, c0. split; [apply list_elem_of_here|exact E0]. }
  all: rewrite lookup_insert_ne by exact Hne.
  all: destruct (fs !! (libs ++ name)) as [[c1|]|] eqn:E1.
  all: try (split; [reflexivity|]; exists (libs ++ name), c1;
            split; [apply list_elem_of_further, list_elem_of_here | exact E1]).
  all: split; [reflexivity|]; intros p Hp;
    apply elem_of_cons in Hp as [->|Hp];
    [ rewrite lookup_insert_ne by congruence; apply lookup_insert_eq
    | apply list_elem_of_singleton in Hp as ->; apply lookup_insert_eq ].
Qed.

(** Two directories under the root. *)
Lemma plan_two fs (libs n1 n2 : str) :
  n1 <> [] -> n2 <> [] -> n1 <> n2 ->
  planned
    (match fs !! libs with
     | Some (File _) => (Raise FileExistsError, fs)
     | _ =>
         match <[libs := Dir]> fs !! (libs ++ n1) with
         | Some (File _) => (Raise FileExistsError, <[libs := Dir]> fs)
         | _ =>
             match <[libs ++ n1 := Dir]> (<[libs := Dir]> fs) !! (libs ++ n2) with
             | Some (File _) =>
                 (Raise FileExistsError, <[libs ++ n1 := Dir]> (<[libs := Dir]> fs))
             | _ =>
                 (Return [libs ++ n1; libs ++ n2],
                  <[libs ++ n2 := Dir]> (<[libs ++ n1 := Dir]> (<[libs := Dir]> fs)))
             end
         end
     end) fs libs [n1; n2].
Proof.
  intros H1 H2 H12.
  assert (Hne1 : libs <> libs ++ n1).
  { intros E. apply H1. apply (app_inv_head libs). rewrite app_nil_r. symmetry. exact E. }
  assert (Hne2 : libs <> libs ++ n2).
  { intros E. apply H2. apply (app_inv_head libs). rewrite app_nil_r. symmetry. exact E. }
  pose proof (app_name_ne libs n1 n2 H12) as Hne12.
  destruct (fs !! libs) as [[c0|]|] eqn:E0.
  { split; [reflexivity|]. exists libs, c0. split; [apply list_elem_of_here|exact E0]. }
  all: rewrite (lookup_insert_ne _ libs (libs ++ n1)) by exact Hne1.
  all: destruct (fs !! (libs ++ n1)) as [[c1|]|] eqn:E1.
  all: try (split; [reflexivity|]; exists (libs ++ n1), c1;
            split; [apply list_elem_of_further, list_elem_of_here | exact E1]).
  all: rewrite (lookup_insert_ne _ (libs ++ n1) (libs ++ n2)) by exact Hne12.
  all: rewrite (lookup_insert_ne _ libs (libs ++ n2)) by exact Hne2.
  all: destruct (fs !! (libs ++ n2)) as [[c2|]|] eqn:E2.
  all: try (split; [reflexivity|]; exists (libs ++ n2), c2;
            split; [do 2 apply list_elem_of_further; apply list_elem_of_here | exact E2]).
  all: split; [reflexivity|]; intros p Hp;
    apply elem_of_cons in Hp as [->|Hp];
    [ rewrite !lookup_insert_ne by congruence; apply lookup_insert_eq
    | apply elem_of_cons in Hp as [->|Hp];
      [ rewrite lookup_insert_ne by congruence; apply lookup_insert_eq
      | apply list_elem_of_singleton in Hp as ->; apply lookup_insert_eq ] ].
Qed.

(** The method, run: on the four constants and on anything else. *)
Lemma create_lib_arch_folders_arm fs base :
  create_lib_arch_folders base (Some ARCH_ARM) fs =
    let libs := Py.join base (lit "lib/") in
    match fs !! libs with
    | Some (File _) => (Raise FileExistsError, fs)
    | _ =>
        match <[libs := Dir]> fs !! (libs ++ lit "armeabi") with
        | Some (File _) => (Raise FileExistsError, <[libs := Dir]> fs)
        | _ =>
            match <[libs ++ lit "armeabi" := Dir]> (<[libs := Dir]> fs)
                    !! (libs ++ lit "armeabi-v7a") with
            | Some (File _) =>
                (Raise FileExistsError, <[libs ++ lit "armeabi" := Dir]> (<[libs := Dir]> fs))
            | _ =>
                (Return [libs ++ lit "armeabi"; libs ++ lit "armeabi-v7a"],
                 <[libs ++ lit "armeabi-v7a" := Dir]>
                   (<[libs ++ lit "armeabi" := Dir]> (<[libs := Dir]> fs)))
            end
        end
    end.
Proof.
  cbv zeta. unfold create_lib_arch_folders.
  change (arch_is (Some ARCH_ARM) ARCH_ARM) with true. cbv iota.
  rewrite !(join_after_slash (Py.join base (lit "lib/"))) by
    (first [apply libs_path_last | reflexivity]).
  unfold bind. rewrite make_if_absent_run.
  destruct (fs !! Py.join base (lit "lib/")) as [[c0|]|]; [reflexivity| |].
  all: rewrite make_if_absent_run.
  all: destruct (<[Py.join base (lit "lib/") := Dir]> fs
                   !! (Py.join base (lit "lib/") ++ lit "armeabi")) as [[c1|]|];
    [reflexivity| |].
  all: rewrite make_if_absent_run.
  all: match goal with
       | |- context [?m !! (?l ++ lit "armeabi-v7a")] =>
           destruct (m !! (l ++ lit "armeabi-v7a")) as [[c2|]|]
       end; reflexivity.
Qed.

Lemma create_lib_arch_folders_single fs base (arch : option str) (name : str) :
  arch_is arch ARCH_ARM = false ->
  (if arch_is arch ARCH_ARM64 then Some (lit "arm64-v8a")
   else if arch_is arch ARCH_X86 then Some (lit "x86")
   else if arch_is arch ARCH_X64 then Some (lit "x86_64")
   else None) = Some name ->
  create_lib_arch_folders base arch fs =
    let libs := Py.join base (lit "lib/") in
    match fs !! libs with
    | Some (File _) => (Raise FileExistsError, fs)
    | _ =>
        match <[libs := Dir]> fs !! (libs ++ name) with
        | Some (File _) => (Raise FileExistsError, <[libs := Dir]> fs)
        | _ => (Return [libs ++ name], <[libs ++ name := Dir]> (<[libs := Dir]> fs))
        end
    end.
Proof.
  intros Harm Hname. cbv zeta. unfold create_lib_arch_folders. rewrite Harm.
  rewrite !(join_after_slash (Py.join base (lit "lib/"))) by
    (first [apply libs_path_last | reflexivity]).
  assert (Hsub :
    (if arch_is arch ARCH_ARM64
     then Some (Py.join base (lit "lib/") ++ lit "arm64-v8a", @None str)
     else if arch_is arch ARCH_X86
     then Some (Py.join base (lit "lib/") ++ lit "x86", None)
     else if arch_is arch ARCH_X64
     then Some (Py.join base (lit "lib/") ++ lit "x86_64", None)
     else None) = Some (Py.join base (lit "lib/") ++ name, None)).
  { destruct (arch_is arch ARCH_ARM64); [congruence|].
    destruct (arch_is arch ARCH_X86); [congruence|].
    destruct (arch_is arch ARCH_X64); [congruence|discriminate]. }
  rewrite Hsub. unfold bind. rewrite make_if_absent_run.
  destruct (fs !! Py.join base (lit "lib/")) as [[c0|]|]; [reflexivity| |].
  all: rewrite make_if_absent_run.
  all: destruct (<[Py.join base (lit "lib/") := Dir]> fs
                   !! (Py.join base (lit "lib/") ++ name)) as [[c1|]|]; reflexivity.
Qed.

Lemma create_lib_arch_folders_unknown fs base (arch : option str) :
  arch <> Some ARCH_ARM -> arch <> Some ARCH_ARM64 ->
  arch <> Some ARCH_X86 -> arch <> Some ARCH_X64 ->
  create_lib_arch_folders base arch fs =
    match fs !! Py.join base (lit "lib/") with
    | Some (File _) => (Raise FileExistsError, fs)
    | _ => (Return [], <[Py.join base (lit "lib/") := Dir]> fs)
    end.
Proof.
  intros H1 H2 H3 H4. unfold create_lib_arch_folders, arch_is.
  rewrite !bool_decide_eq_false_2 by assumption.
  unfold bind. rewrite make_if_absent_run.
  destruct (fs !! Py.join base (lit "lib/")) as [[c0|]|]; reflexivity.
Qed.

End Directories.

(** C6.  For every tree root and file system, with [libs] the library
    root [join(base_path, 'lib/')]: for arm the method returns exactly
    [libs + 'armeabi'] and [libs + 'armeabi-v7a']; for arm64, x86 and x64
    exactly one directory ([arm64-v8a], [x86], [x86_64]); for anything else
    (also [None]) the empty list.  The directories returned, and the root,
    are directories afterwards.  The one other way out is the
    [FileExistsError] of [os.makedirs], raised only where a regular file
    stands at one of these paths. *)
Theorem create_lib_arch_folders_plans (fs : gmap str node) (base : str) :
  let libs := Py.join base (lit "lib/") in
  planned (Patcher.create_lib_arch_folders base (Some Patcher.ARCH_ARM) fs)
          fs libs [lit "armeabi"; lit "armeabi-v7a"] /\
  planned (Patcher.create_lib_arch_folders base (Some Patcher.ARCH_ARM64) fs)
          fs libs [lit "arm64-v8a"] /\
  planned (Patcher.create_lib_arch_folders base (Some Patcher.ARCH_X86) fs)
          fs libs [lit "x86"] /\
  planned (Patcher.create_lib_arch_folders base (Some Patcher.ARCH_X64) fs)
          fs libs [lit "x86_64"] /\
  (forall arch : option str,
     arch <> Some Patcher.ARCH_ARM -> arch <> Some Patcher.ARCH_ARM64 ->
     arch <> Some Patcher.ARCH_X86 -> arch <> Some Patcher.ARCH_X64 ->
     planned (Patcher.create_lib_arch_folders base arch fs) fs libs []).
Proof.
  cbv zeta. repeat apply conj.
  - rewrite create_lib_arch_folders_arm. apply plan_two; discriminate.
  - rewrite (create_lib_arch_folders_single fs base _ (lit "arm64-v8a"));
      [apply plan_one; discriminate | reflexivity | reflexivity].
  - rewrite (create_lib_arch_folders_single fs base _ (lit "x86"));
      [apply plan_one; discriminate | reflexivity | reflexivity].
  - rewrite (create_lib_arch_folders_single fs base _ (lit "x86_64"));
      [apply plan_one; discriminate | reflexivity | reflexivity].
  - intros arch H1 H2 H3 H4.
    rewrite create_lib_arch_folders_unknown by assumption.
    destruct (fs !! Py.join base (lit "lib/")) as [[c0|]|] eqn:E0.
    + split; [reflexivity|]. exists (Py.join base (lit "lib/")), c0.
      split; [apply list_elem_of_here | exact E0].
    + split; [reflexivity|]. intros p Hp.
      apply list_elem_of_singleton in Hp as ->. apply lookup_insert_eq.
    + split; [reflexivity|]. intros p Hp.
      apply list_elem_of_singleton in Hp as ->. apply lookup_insert_eq.
Qed.

(** On a tree with no library root yet, nothing stands in the way. *)
Example create_lib_arch_folders_on_fresh_tree :
  fst (Patcher.create_lib_arch_folders (lit "/tmp/app") (Some Patcher.ARCH_ARM) ∅)
    = Return [lit "/tmp/app/lib/armeabi"; lit "/tmp/app/lib/armeabi-v7a"] /\
  fst (Patcher.create_lib_arch_folders (lit "/tmp/app") (Some Patcher.ARCH_ARM64) ∅)
    = Return [lit "/tmp/app/lib/arm64-v8a"] /\
  fst (Patcher.create_lib_arch_folders (lit "/tmp/app") None ∅) = Return [] /\
  fst (Patcher.create_lib_arch_folders (lit "/tmp/app") (Some Patcher.ARCH_X86)
         {[ lit "/tmp/app/lib/x86" := File (lit "not a directory") ]})
    = Raise FileExistsError.
Proof. repeat split; vm_compute; reflexivity. Qed.

(** ** Claim C9: the removal step without the old companions *)

Section Removal.

Import Patcher.

Implicit Types (fs : gmap str node) (folder gadget : str) (cfg auto : option str).

(** Joining names to one folder puts them behind one prefix. *)
Lemma join_prefix (a : str) :
  exists pre : str, forall n : str, Py.starts_with (lit "/") n = false -> Py.join a n = pre ++ n.
Proof.
  destruct (last a) as [c|] eqn:E.
  - destruct (Ascii.eqb c "/") eqn:Ec.
    + exists a. intros n Hn. unfold Py.join. rewrite Hn, E, Ec. reflexivity.
    + exists (a ++ lit "/"). intros n Hn. unfold Py.join. rewrite Hn, E, Ec.
      rewrite <- app_assoc. reflexivity.
  - exists []. intros n Hn. unfold Py.join. rewrite Hn, E. reflexivity.
Qed.

(** The three installed names are three different paths in a folder. *)
Lemma installed_paths_differ folder :
  Py.join folder DEFAULT_GADGET_NAME <> Py.join folder DEFAULT_CONFIG_NAME /\
  Py.join folder DEFAULT_GADGET_NAME <> Py.join folder DEFAULT_HOOKFILE_NAME /\
  Py.join folder DEFAULT_CONFIG_NAME <> Py.join folder DEFAULT_HOOKFILE_NAME.
Proof.
  destruct (join_prefix folder) as [pre Hpre].
  rewrite !Hpre by reflexivity.
  repeat split; apply app_name_ne; discriminate.
Qed.

Lemma without_old_gadget_subseteq fs folder : without_old_gadget fs folder ⊆ fs.
Proof.
  unfold without_old_gadget.
  destruct (fs !! Py.join folder DEFAULT_GADGET_NAME) as [[c|]|];
    [apply delete_subseteq | reflexivity | reflexivity].
Qed.

Lemma without_old_gadget_lookup fs folder (p : str) :
  p <> Py.join folder DEFAULT_GADGET_NAME ->
  without_old_gadget fs folder !! p = fs !! p.
Proof.
  intros Hp. unfold without_old_gadget.
  destruct (fs !! Py.join folder DEFAULT_GADGET_NAME) as [[c|]|]; try reflexivity.
  apply lookup_delete_ne. congruence.
Qed.

(** [delete_existing_gadget] with a flag that is not zero, run. *)
Lemma delete_existing_gadget_custom fs folder (flags : Z) :
  flags <> 0 ->
  delete_existing_gadget folder flags fs =
    let fs0 := without_old_gadget fs folder in
    match fs !! Py.join folder DEFAULT_CONFIG_NAME with
    | None => (Raise FileNotFoundError, fs0)
    | Some Dir => (Raise IsADirectoryError, fs0)
    | Some (File _) =>
        let fs1 := delete (Py.join folder DEFAULT_CONFIG_NAME) fs0 in
        match fs !! Py.join folder DEFAULT_HOOKFILE_NAME with
        | None => (Raise FileNotFoundError, fs1)
        | Some Dir => (Raise IsADirectoryError, fs1)
        | Some (File _) => (Return tt, delete (Py.join folder DEFAULT_HOOKFILE_NAME) fs1)
        end
    end.
Proof.
  intros Hflags. cbv zeta.
  destruct (installed_paths_differ folder) as (Hgc & Hgh & Hch).
  unfold delete_existing_gadget, bind, Os.isfile.
  assert (Hstep :
    (if match fs !! Py.join folder DEFAULT_GADGET_NAME with
        | Some (File _) => true | _ => false end
     then Os.remove (Py.join folder DEFAULT_GADGET_NAME) else ret tt) fs
    = (Return tt, without_old_gadget fs folder)).
  { unfold without_old_gadget, Os.remove, ret.
    destruct (fs !! Py.join folder DEFAULT_GADGET_NAME) as [[c|]|] eqn:E;
      rewrite ?E; reflexivity. }
  rewrite Hstep.
  destruct (Z.eqb_spec flags 0) as [|_]; [contradiction|]. cbn [negb].
  unfold Os.remove.
  rewrite (without_old_gadget_lookup fs folder (Py.join folder DEFAULT_CONFIG_NAME))
    by congruence.
  destruct (fs !! Py.join folder DEFAULT_CONFIG_NAME) as [[c|]|]; try reflexivity.
  rewrite lookup_delete_ne by congruence.
  rewrite (without_old_gadget_lookup fs folder (Py.join folder DEFAULT_HOOKFILE_NAME))
    by congruence.
  destruct (fs !! Py.join folder DEFAULT_HOOKFILE_NAME) as [[c'|]|]; reflexivity.
Qed.

End Removal.

Section RemovalRaises.

Import Patcher.

Implicit Types (fs : gmap str node) (folder gadget : str) (cfg auto : option str).

(** With a companion supplied, the loop body passes a flag that is not
    zero, and an exception of the removal ends the body. *)
Lemma install_in_folder_removal_raises gadget cfg auto folder fs (e : exn) fs' :
  Py.truthy cfg || Py.truthy auto = true ->
  (forall flags : Z, flags <> 0 ->
     delete_existing_gadget folder flags fs = (Raise e, fs')) ->
  install_in_folder gadget cfg auto folder fs = (Raise e, fs').
Proof.
  intros Hgiven Hraise. unfold install_in_folder, bind.
  destruct (Py.truthy cfg), (Py.truthy auto); try discriminate Hgiven;
    cbn [andb negb]; rewrite Hraise by discriminate; reflexivity.
Qed.

(** Without both old companions, the removal raises [FileNotFoundError],
    and what it leaves is part of what was there. *)
Lemma delete_existing_gadget_raises fs folder :
  companions_missing fs folder ->
  exists fs', fs' ⊆ fs /\
    forall flags : Z, flags <> 0 ->
      delete_existing_gadget folder flags fs = (Raise FileNotFoundError, fs').
Proof.
  intros [Hcfg|[[content Hcfg] Hhook]].
  - exists (without_old_gadget fs folder).
    split; [apply without_old_gadget_subseteq|].
    intros flags Hflags. rewrite delete_existing_gadget_custom by exact Hflags.
    cbv zeta. rewrite Hcfg. reflexivity.
  - exists (delete (Py.join folder DEFAULT_CONFIG_NAME) (without_old_gadget fs folder)).
    split.
    + etransitivity; [apply delete_subseteq | apply without_old_gadget_subseteq].
    + intros flags Hflags. rewrite delete_existing_gadget_custom by exact Hflags.
      cbv zeta. rewrite Hcfg, Hhook. reflexivity.
Qed.

(** C9.  Whenever at least one companion path is supplied and the
    architecture directory [folder] does not hold both old companion
    files when its turn comes, the removal step raises
    [FileNotFoundError]: [delete_existing_gadget] does (whichever flag
    that is not zero it is given), so the loop body for that directory
    does, the loop from that directory on does, and the whole call does
    when that directory is the first one planned.  The file system left
    behind is part of the one before the removal: nothing was copied. *)
Theorem removal_raises_without_old_companions gadget cfg auto folder fs :
  Py.truthy cfg || Py.truthy auto = true ->
  companions_missing fs folder ->
  exists fs', fs' ⊆ fs /\
    (forall flags : Z, flags <> 0 ->
       delete_existing_gadget folder flags fs = (Raise FileNotFoundError, fs')) /\
    install_in_folder gadget cfg auto folder fs = (Raise FileNotFoundError, fs') /\
    (forall rest : list str,
       for_each (folder :: rest) (install_in_folder gadget cfg auto) fs
         = (Raise FileNotFoundError, fs')) /\
    (forall (base : str) (rest : list str) (fs0 : gmap str node),
       create_lib_arch_folders base (get_arch_by_gadget gadget) fs0
         = (Return (folder :: rest), fs) ->
       insert_frida_lib base gadget cfg auto fs0 = (Raise FileNotFoundError, fs')).
Proof.
  intros Hgiven Hmissing.
  destruct (delete_existing_gadget_raises fs folder Hmissing) as (fs' & Hsub & Hraise).
  exists fs'. split; [exact Hsub|]. split; [exact Hraise|].
  pose proof (install_in_folder_removal_raises gadget cfg auto folder fs _ fs' Hgiven Hraise)
    as Hbody.
  split; [exact Hbody|]. split.
  - intros rest. cbn [for_each]. unfold bind. rewrite Hbody. reflexivity.
  - intros base rest fs0 Hplan. unfold insert_frida_lib, bind. rewrite Hplan.
    cbn [for_each]. unfold bind. rewrite Hbody. reflexivity.
Qed.

End RemovalRaises.

Lemma removal_raises_without_old_companions_witness :
  exists fs', fs' ⊆ TreeSamples.planned_tree /\
    (forall flags : Z, flags <> 0 ->
       Patcher.delete_existing_gadget (lit "/tmp/app/lib/arm64-v8a") flags
         TreeSamples.planned_tree = (Raise FileNotFoundError, fs')) /\
    Patcher.install_in_folder TreeSamples.gadget (Some TreeSamples.config) None
      (lit "/tmp/app/lib/arm64-v8a") TreeSamples.planned_tree
      = (Raise FileNotFoundError, fs') /\
    (forall rest : list str,
       for_each (lit "/tmp/app/lib/arm64-v8a" :: rest)
         (Patcher.install_in_folder TreeSamples.gadget (Some TreeSamples.config) None)
         TreeSamples.planned_tree = (Raise FileNotFoundError, fs')) /\
    (forall (base : str) (rest : list str) (fs0 : gmap str node),
       Patcher.create_lib_arch_folders base
         (Patcher.get_arch_by_gadget TreeSamples.gadget) fs0
         = (Return (lit "/tmp/app/lib/arm64-v8a" :: rest), TreeSamples.planned_tree) ->
       Patcher.insert_frida_lib base TreeSamples.gadget (Some TreeSamples.config) None fs0
         = (Raise FileNotFoundError, fs')).
Proof.
  apply (removal_raises_without_old_companions
           TreeSamples.gadget (Some TreeSamples.config) None
           (lit "/tmp/app/lib/arm64-v8a") TreeSamples.planned_tree).
  - reflexivity.
  - left. vm_compute. reflexivity.
Defined.

(** On a fresh tree, the whole call with a config supplied: the
    directories are made, and the removal raises before any copy. *)
Example insert_frida_lib_on_fresh_tree :
  Patcher.insert_frida_lib (lit "/tmp/app") TreeSamples.gadget
    (Some TreeSamples.config) None TreeSamples.sources
  = (Raise FileNotFoundError, TreeSamples.planned_tree).
Proof. vm_compute. reflexivity. Qed.

(** ** Claims C7 and C10: what the installer does on two trees *)

(** C7 does not hold of the code.  The tree holds a payload and both
    companions of an earlier run; the call supplies a config and no
    auto-load script.  [delete_existing_gadget] is passed [CONFIG_BIT],
    tests only that the flag is not zero, and removes both companions: the
    call succeeds and the old auto-load companion is gone. *)
Lemma config_only_removes_the_script_too :
  let folder := lit "/tmp/app/lib/arm64-v8a" in
  let run := Patcher.insert_frida_lib (lit "/tmp/app") TreeSamples.gadget
               (Some TreeSamples.config) None TreeSamples.patched_tree in
  TreeSamples.patched_tree !! Py.join folder Patcher.DEFAULT_HOOKFILE_NAME
    = Some (File (lit "OLD SCRIPT")) /\
  fst run = Return true /\
  snd run !! Py.join folder Patcher.DEFAULT_HOOKFILE_NAME = None /\
  snd run !! Py.join folder Patcher.DEFAULT_CONFIG_NAME = Some (File (lit "CONFIG")) /\
  snd (Patcher.delete_existing_gadget folder Patcher.CONFIG_BIT TreeSamples.patched_tree)
    = TreeSamples.planned_tree.
Proof. cbv zeta. repeat split; vm_compute; reflexivity. Qed.

(** C10 does not hold of the code on a tree root whose own path holds the
    text libfrida-gadget.so.  The target of the auto-load companion is
    made by replacing that text in the whole target path, so the script is
    copied under another root: the call succeeds, the planned directory
    has the payload, and it has no auto-load companion. *)
Lemma script_installed_outside_planned_directory :
  let folder := lit "/w/libfrida-gadget.so/lib/arm64-v8a" in
  let run := Patcher.insert_frida_lib (lit "/w/libfrida-gadget.so") TreeSamples.gadget
               None (Some TreeSamples.script) TreeSamples.oddly_named_tree in
  fst (Patcher.create_lib_arch_folders (lit "/w/libfrida-gadget.so")
         (Patcher.get_arch_by_gadget TreeSamples.gadget) TreeSamples.oddly_named_tree)
    = Return [folder] /\
  fst run = Return true /\
  snd run !! Py.join folder Patcher.DEFAULT_GADGET_NAME = Some (File (lit "GADGET")) /\
  snd run !! Py.join folder Patcher.DEFAULT_HOOKFILE_NAME = None /\
  snd run !! lit "/w/libhook.js.so/lib/arm64-v8a/libhook.js.so"
    = Some (File (lit "SCRIPT")).
Proof. cbv zeta. repeat split; vm_compute; reflexivity. Qed.

(** * Part III: further properties of the methods *)

(** ** [insert_frida_loader]: the original text is kept *)

Section LoaderFrame.

Import Patcher.

(** Whenever the block ends with new content, that content is the original
    text with one snippet put in at one place: nothing of the original is
    dropped, changed or moved, and the text grows by the length of the
    snippet. *)
Theorem insertion_keeps_original_text (content lib new : str) :
  insert_frida_loader_content content lib = NewContent new ->
  exists (pre post snippet : str),
    content = pre ++ post /\
    new = pre ++ snippet ++ post /\
    (snippet = partial_snippet lib \/ snippet = full_snippet lib) /\
    Py.len new = Py.len content + Py.len snippet.
Proof.
  intros Hnew.
  assert (Hshape : exists (i : Z) (snippet : str),
            0 <= i /\
            new = Py.slice content 0 i ++ snippet ++ Py.slice_from content i /\
            (snippet = partial_snippet lib \/ snippet = full_snippet lib)).
  { destruct (loader_cases content) as [Hg|[Hg Hcase]].
    { rewrite (loader_skips content lib Hg) in Hnew. discriminate. }
    destruct Hcase as [Hdef|[Hdef|[Hdef|[Hpart|Hfull]]]];
      try (rewrite (structural_defect_outcome content lib _ Hg Hdef) in Hnew;
           discriminate).
    - destruct Hpart as (d & v & c & e & p & Hd & Hv & Hc & He & Hp).
      pose proof (loader_partial content lib d v c e p Hg Hd Hv Hc He Hp) as Hrun.
      pose proof (found_in_bounds _ _ _ _ _ Hp) as Bp.
      exists (p + 10), (partial_snippet lib). split; [lia|]. split; [|left; reflexivity].
      rewrite <- partial_injection_code_snippet. congruence.
    - destruct Hfull as (d & v & Hd & Hv & Hc).
      pose proof (loader_full content lib d v Hg Hd Hv Hc) as Hrun.
      pose proof (found_in_bounds _ _ _ _ _ Hd) as Bd.
      exists (d + 17), (full_snippet lib). split; [lia|]. split; [|right; reflexivity].
      rewrite <- full_injection_code_snippet. congruence. }
  destruct Hshape as (i & snippet & Hi & Hn & Hkind).
  exists (Py.slice content 0 i), (Py.slice_from content i), snippet.
  split; [symmetry; apply slice_to_from; exact Hi|].
  split; [exact Hn|]. split; [exact Hkind|].
  rewrite Hn, !len_app.
  rewrite <- (slice_to_from content i Hi) at 3. rewrite len_app. lia.
Qed.

End LoaderFrame.

Lemma insertion_keeps_original_text_witness :
  exists (pre post snippet : str),
    Samples.with_initializer = pre ++ post /\
    Patcher.text_after Samples.with_initializer
      (Patcher.insert_frida_loader_content Samples.with_initializer (lit "mylib"))
      = pre ++ snippet ++ post /\
    (snippet = partial_snippet (lit "mylib") \/ snippet = full_snippet (lit "mylib")) /\
    Py.len (Patcher.text_after Samples.with_initializer
              (Patcher.insert_frida_loader_content Samples.with_initializer (lit "mylib")))
      = Py.len Samples.with_initializer + Py.len snippet.
Proof.
  apply (insertion_keeps_original_text Samples.with_initializer (lit "mylib")).
  vm_compute. reflexivity.
Defined.

(** ** [get_arch_by_gadget]: when a name is arm, and when arm64 *)

Section ArchitectureCases.

Import Patcher.

(** A name resolves to arm exactly when it holds arm and does not hold
    64, and to arm64 exactly when it holds arm64; whatever it resolves to
    is one of the four constants of the class. *)
Theorem get_arch_by_gadget_arm_cases (name : str) :
  (get_arch_by_gadget name = Some ARCH_ARM <->
     Py.contains (lit "arm") name = true /\ Py.contains (lit "64") name = false) /\
  (get_arch_by_gadget name = Some ARCH_ARM64 <->
     Py.contains (lit "arm64") name = true) /\
  (forall arch : str, get_arch_by_gadget name = Some arch ->
     arch = ARCH_ARM \/ arch = ARCH_ARM64 \/ arch = ARCH_X86 \/ arch = ARCH_X64).
Proof.
  unfold get_arch_by_gadget.
  pose proof (arm64_holds_arm_and_64 name) as Harm64.
  destruct (Py.contains (lit "arm64") name).
  - destruct (Harm64 eq_refl) as [-> ->]. cbn [andb negb].
    repeat split; try discriminate; try reflexivity.
    + intros [_ H]. discriminate H.
    + intros arch H. injection H as <-. auto.
  - clear Harm64.
    destruct (Py.contains (lit "arm") name), (Py.contains (lit "64") name),
      (Py.contains (lit "i386") name), (Py.contains (lit "x86") name),
      (Py.contains (lit "x86_64") name); cbn [andb orb negb];
      (split; [split; [try discriminate; auto | intros [? ?]; try discriminate; reflexivity]|]);
      (split; [split; discriminate|]);
      intros arch H; try discriminate H; injection H as <-; auto.
Qed.

End ArchitectureCases.

(** ** [delete_existing_gadget] and [insert_frida_lib]: the calls that copy nothing *)

Section QuietCalls.

Import Patcher.

Implicit Types (fs : gmap str node) (folder gadget base : str) (cfg auto : option str).

(** With the flag left at zero, [delete_existing_gadget] never raises: it
    returns, the old payload of the folder is no longer a file, and every
    other path is as it was. *)
Theorem delete_existing_gadget_plain fs folder :
  exists fs',
    delete_existing_gadget folder 0 fs = (Return tt, fs') /\
    (forall content, fs' !! Py.join folder DEFAULT_GADGET_NAME <> Some (File content)) /\
    (forall p, p <> Py.join folder DEFAULT_GADGET_NAME -> fs' !! p = fs !! p).
Proof.
  exists (without_old_gadget fs folder). split; [|split].
  - unfold delete_existing_gadget, bind, Os.isfile, Os.remove, ret, without_old_gadget.
    destruct (fs !! Py.join folder DEFAULT_GADGET_NAME) as [[c|]|] eqn:E;
      rewrite ?E; reflexivity.
  - intros content. unfold without_old_gadget.
    destruct (fs !! Py.join folder DEFAULT_GADGET_NAME) as [[c|]|] eqn:E.
    + rewrite lookup_delete_eq. discriminate.
    + rewrite E. discriminate.
    + rewrite E. discriminate.
  - intros p Hp. apply without_old_gadget_lookup. exact Hp.
Qed.

(** A payload whose name resolves to no architecture: the call makes the
    library root if it is not there, copies and removes nothing, and
    returns [False], whatever companions were supplied (the one other way
    out is the [FileExistsError] of a regular file at the library root). *)
Theorem unresolved_architecture_installs_nothing base gadget cfg auto fs :
  get_arch_by_gadget gadget = None ->
  insert_frida_lib base gadget cfg auto fs =
    match fs !! Py.join base (lit "lib/") with
    | Some (File _) => (Raise FileExistsError, fs)
    | _ => (Return false, <[Py.join base (lit "lib/") := Dir]> fs)
    end.
Proof.
  intros Harch. unfold insert_frida_lib, bind. rewrite Harch.
  rewrite create_lib_arch_folders_unknown by discriminate.
  destruct (fs !! Py.join base (lit "lib/")) as [[c|]|]; reflexivity.
Qed.

End QuietCalls.

Lemma unresolved_architecture_installs_nothing_witness :
  Patcher.insert_frida_lib (lit "/tmp/app") (lit "/home/u/frida-gadget-android-mips.so")
    (Some TreeSamples.config) (Some TreeSamples.script) TreeSamples.sources =
    match TreeSamples.sources !! Py.join (lit "/tmp/app") (lit "lib/") with
    | Some (File _) => (Raise FileExistsError, TreeSamples.sources)
    | _ => (Return false, <[Py.join (lit "/tmp/app") (lit "lib/") := Dir]> TreeSamples.sources)
    end.
Proof.
  apply (unresolved_architecture_installs_nothing (lit "/tmp/app")
           (lit "/home/u/frida-gadget-android-mips.so")).
  vm_compute. reflexivity.
Defined.

(** ** [inject_permission_manifest]: a second call *)

Section FindInPrefix.

Implicit Types (s sub P r : str) (i j lo : Z).

(** An occurrence, by the characters it covers. *)
Lemma occurs_at_take sub s i :
  occurs_at sub s i <->
  0 <= i /\ i + Py.len sub <= Py.len s /\
  take (length sub) (drop (Z.to_nat i) s) = sub.
Proof.
  unfold occurs_at. pose proof (len_nonneg sub) as Hsub.
  split; intros (H0 & Hlen & Hs); (split; [exact H0|]; split; [exact Hlen|]).
  - rewrite slice_inner in Hs by lia.
    replace (Z.to_nat (i + Py.len sub - i)) with (length sub) in Hs
      by (unfold Py.len; lia). exact Hs.
  - rewrite slice_inner by lia.
    replace (Z.to_nat (i + Py.len sub - i)) with (length sub)
      by (unfold Py.len; lia). exact Hs.
Qed.

(** An occurrence that ends inside a prefix of the text is an occurrence in
    the prefix, whatever follows. *)
Lemma occurs_at_prefix sub P r i :
  i + Py.len sub <= Py.len P ->
  occurs_at sub (P ++ r) i <-> occurs_at sub P i.
Proof.
  intros Hin. rewrite !occurs_at_take.
  pose proof (len_nonneg sub) as Hsub. pose proof (len_nonneg r) as Hr.
  split; intros (H0 & Hlen & Hs); (split; [exact H0|]).
  - split; [exact Hin|].
    rewrite drop_app_le in Hs by (unfold Py.len in *; lia).
    rewrite take_app_le in Hs by (rewrite length_drop; unfold Py.len in *; lia).
    exact Hs.
  - split; [rewrite len_app; lia|].
    rewrite drop_app_le by (unfold Py.len in *; lia).
    rewrite take_app_le by (rewrite length_drop; unfold Py.len in *; lia).
    exact Hs.
Qed.

(** What [find] finds inside a prefix does not depend on what follows the
    prefix. *)
Lemma found_in_same_prefix sub P r r' lo i :
  found_in sub (P ++ r) lo (Py.len (P ++ r)) i ->
  i + Py.len sub <= Py.len P ->
  found_in sub (P ++ r') lo (Py.len (P ++ r')) i.
Proof.
  intros (Hlo & Hhi & Hocc & Hfirst) Hin.
  pose proof (len_nonneg r') as Hr'.
  split; [exact Hlo|]. split; [rewrite len_app; lia|]. split.
  - apply occurs_at_prefix; [exact Hin|]. apply (occurs_at_prefix sub P r); assumption.
  - intros j Hj Hocc'. apply (Hfirst j Hj).
    apply occurs_at_prefix; [lia|]. apply (occurs_at_prefix sub P r'); [lia|exact Hocc'].
Qed.

End FindInPrefix.

Section ManifestTwice.

Import Patcher.

Implicit Types (content permission : str) (m e : Z).

(** The [>] found from the root tag on lies past the ten characters of
    [<manifest ], none of which is a [>]. *)
Lemma closing_bracket_after_tag content m e :
  found_in (lit "<manifest ") content 0 (Py.len content) m ->
  found_in (lit ">") content m (Py.len content) e ->
  m + 10 <= e.
Proof.
  intros (_ & _ & Hm & _) (Hme & _ & He & _).
  apply occurs_at_take in Hm as (Hm0 & Hmlen & Hmtake).
  apply occurs_at_take in He as (He0 & Helen & Hetake).
  destruct (Z.le_gt_cases (m + 10) e) as [|Hlt]; [assumption|exfalso].
  assert (Hk : exists k : nat, (k < 10)%nat /\ Z.to_nat e = (Z.to_nat m + k)%nat).
  { exists (Z.to_nat (e - m)). lia. }
  destruct Hk as (k & Hk & Hek).
  rewrite Hek, <- drop_drop in Hetake.
  change (length (lit ">")) with 1%nat in Hetake.
  rewrite take_drop_commute in Hetake.
  assert (Hcut : take (k + 1) (drop (Z.to_nat m) content)
                 = take (k + 1) (lit "<manifest ")).
  { change (length (lit "<manifest ")) with 10%nat in Hmtake.
    replace (take (k + 1) (lit "<manifest "))
      with (take (k + 1) (take 10 (drop (Z.to_nat m) content)))
      by (f_equal; exact Hmtake).
    rewrite take_take, Nat.min_l by lia. reflexivity. }
  rewrite Hcut in Hetake.
  do 10 (destruct k as [|k]; [vm_compute in Hetake; discriminate Hetake|]).
  lia.
Qed.

(** The method is not idempotent.  Whenever a call gives a new manifest,
    the text is the original with the declaration line put in after the
    root tag's [>], and a second call on that text puts the same line in
    once more, at the same place. *)
Theorem permission_declared_twice content permission (new : str) :
  inject_permission_manifest_content content permission = Some new ->
  exists before after : str,
    content = before ++ lit ">" ++ after /\
    new = before ++ lit ">" ++ declaration_line permission ++ after /\
    inject_permission_manifest_content new permission =
      Some (before ++ lit ">" ++ declaration_line permission
            ++ declaration_line permission ++ after).
Proof.
  intros Hnew.
  pose proof (len_nonneg content) as Ln.
  destruct (find0_bounds content) as [H0 Hn].
  (* the two markers were found *)
  destruct (find_cases content (lit "<manifest ") 0 (Py.len content) H0 Hn)
    as [[Em _]|[_ Hm]].
  { unfold inject_permission_manifest_content, Py.find0 in Hnew.
    rewrite Em in Hnew. discriminate. }
  set (m := Py.find content (lit "<manifest ") 0 (Py.len content)) in *.
  pose proof (found_in_bounds _ _ _ _ _ Hm) as Bm.
  destruct (find_cases content (lit ">") m (Py.len content)) as [[Ee _]|[_ He]];
    [lia | lia | |].
  { unfold inject_permission_manifest_content, Py.find0, Py.find_from in Hnew.
    fold m in Hnew. destruct (m =? -1); [discriminate|].
    rewrite Ee in Hnew. discriminate. }
  set (e := Py.find content (lit ">") m (Py.len content)) in *.
  pose proof (closing_bracket_after_tag content m e Hm He) as Hme.
  (* the text of a call, from what it finds *)
  assert (Hrun : forall text before after,
            text = (before ++ lit ">") ++ after ->
            Py.len before = e ->
            found_in (lit "<manifest ") text 0 (Py.len text) m ->
            found_in (lit ">") text m (Py.len text) e ->
            inject_permission_manifest_content text permission =
              Some (before ++ lit ">" ++ declaration_line permission ++ after)).
  { intros text before after Ht Hb Hm' He'.
    pose proof (len_nonneg text) as Lt.
    pose proof (found_in_bounds _ _ _ _ _ Hm') as Bm'.
    unfold inject_permission_manifest_content, Py.find_from.
    destruct (find0_of_found _ _ _ Hm') as [-> ->].
    destruct (find_of_found text (lit ">") m (Py.len text) e) as [-> ->];
      [lia | lia | exact He' |].
    f_equal.
    assert (Hcut : e + 1 = Py.len (before ++ lit ">")).
    { rewrite len_app. change (Py.len (lit ">")) with 1. lia. }
    rewrite Hcut. rewrite Ht at 1 2. rewrite slice_to_app, slice_from_app.
    unfold declaration_line. rewrite <- !app_assoc. reflexivity. }
  destruct He as (He1 & He2 & Hocc & He4).
  pose proof Hocc as Hocc'.
  apply occurs_at_split in Hocc' as (before & after & Hsplit & Hlen).
  assert (He : found_in (lit ">") content m (Py.len content) e)
    by (split; [|split; [|split]]; assumption).
  assert (Hs : content = (before ++ lit ">") ++ after)
    by (rewrite Hsplit, <- app_assoc; reflexivity).
  assert (HP : Py.len (before ++ lit ">") = e + 1).
  { rewrite len_app. change (Py.len (lit ">")) with 1. lia. }
  exists before, after. split; [exact Hsplit|].
  assert (Hnew' : new = before ++ lit ">" ++ declaration_line permission ++ after).
  { rewrite (Hrun content before after Hs Hlen Hm He) in Hnew. congruence. }
  split; [exact Hnew'|].
  apply (Hrun new before (declaration_line permission ++ after)).
  - rewrite Hnew', <- app_assoc. reflexivity.
  - exact Hlen.
  - rewrite Hnew', (app_assoc before). rewrite Hs in Hm.
    apply (found_in_same_prefix _ _ after); [exact Hm|].
    change (Py.len (lit "<manifest ")) with 10. lia.
  - rewrite Hnew', (app_assoc before). rewrite Hs in He.
    apply (found_in_same_prefix _ _ after); [exact He|].
    change (Py.len (lit ">")) with 1. lia.
Qed.

End ManifestTwice.

Lemma permission_declared_twice_witness :
  exists before after : str,
    ManifestSamples.manifest = before ++ lit ">" ++ after /\
    default []
      (Patcher.inject_permission_manifest_content
         ManifestSamples.manifest Patcher.INTERNET_PERMISSION)
      = before ++ lit ">" ++ declaration_line Patcher.INTERNET_PERMISSION ++ after /\
    Patcher.inject_permission_manifest_content
      (default []
         (Patcher.inject_permission_manifest_content
            ManifestSamples.manifest Patcher.INTERNET_PERMISSION))
      Patcher.INTERNET_PERMISSION =
      Some (before ++ lit ">" ++ declaration_line Patcher.INTERNET_PERMISSION
            ++ declaration_line Patcher.INTERNET_PERMISSION ++ after).
Proof.
  apply (permission_declared_twice ManifestSamples.manifest Patcher.INTERNET_PERMISSION).
  vm_compute. reflexivity.
Defined.

(** ** [get_entrypoint_smali_path]: the first smali root that has the class *)

Section SmaliPath.

Import Entrypoint.

(** The search never raises and changes nothing.  It answers with the
    path tried under the first child of the listing that starts with
    smali and under which that path is a regular file; it answers [None]
    exactly when no such child has it. *)
Theorem get_entrypoint_smali_path_first_match
    (files_at_path : list str) (base_path entrypoint_class : str) (fs : gmap str node) :
  exists answer : option str,
    get_entrypoint_smali_path files_at_path base_path entrypoint_class fs
      = (Return answer, fs) /\
    match answer with
    | Some path =>
        exists (before : list str) (file : str) (after : list str),
          files_at_path = before ++ file :: after /\
          Py.starts_with (lit "smali") file = true /\
          path = entrypoint_tmp base_path file entrypoint_class /\
          (exists content, fs !! path = Some (File content)) /\
          (forall f, f ∈ before -> Py.starts_with (lit "smali") f = true ->
             forall content,
               fs !! entrypoint_tmp base_path f entrypoint_class <> Some (File content))
    | None =>
        forall f, f ∈ files_at_path -> Py.starts_with (lit "smali") f = true ->
          forall content,
            fs !! entrypoint_tmp base_path f entrypoint_class <> Some (File content)
    end.
Proof.
  induction files_at_path as [|file rest IH].
  - exists None. split; [reflexivity|]. intros f Hf. apply elem_of_nil in Hf. contradiction.
  - destruct IH as (answer & Hrun & Hanswer).
    cbn [get_entrypoint_smali_path].
    destruct (Py.starts_with (lit "smali") file) eqn:Hsmali.
    + unfold bind, Os.isfile.
      destruct (fs !! entrypoint_tmp base_path file entrypoint_class) as [[content|]|] eqn:Hpath.
      * exists (Some (entrypoint_tmp base_path file entrypoint_class)).
        split; [reflexivity|]. exists [], file, rest.
        split; [reflexivity|]. split; [exact Hsmali|]. split; [reflexivity|].
        split; [exists content; exact Hpath|].
        intros f Hf. apply elem_of_nil in Hf. contradiction.
      * exists answer. split; [exact Hrun|]. destruct answer as [path|].
        -- destruct Hanswer as (before & file' & after & Hl & Hs & Hp & Hfile & Hfirst).
           exists (file :: before), file', after.
           split; [rewrite Hl; reflexivity|]. split; [exact Hs|]. split; [exact Hp|].
           split; [exact Hfile|]. intros f Hf Hfs content.
           apply elem_of_cons in Hf as [->|Hf]; [rewrite Hpath; discriminate|].
           apply Hfirst; assumption.
        -- intros f Hf Hfs content.
           apply elem_of_cons in Hf as [->|Hf]; [rewrite Hpath; discriminate|].
           apply Hanswer; assumption.
      * exists answer. split; [exact Hrun|]. destruct answer as [path|].
        -- destruct Hanswer as (before & file' & after & Hl & Hs & Hp & Hfile & Hfirst).
           exists (file :: before), file', after.
           split; [rewrite Hl; reflexivity|]. split; [exact Hs|]. split; [exact Hp|].
           split; [exact Hfile|]. intros f Hf Hfs content.
           apply elem_of_cons in Hf as [->|Hf]; [rewrite Hpath; discriminate|].
           apply Hfirst; assumption.
        -- intros f Hf Hfs content.
           apply elem_of_cons in Hf as [->|Hf]; [rewrite Hpath; discriminate|].
           apply Hanswer; assumption.
    + exists answer. split; [exact Hrun|]. destruct answer as [path|].
      * destruct Hanswer as (before & file' & after & Hl & Hs & Hp & Hfile & Hfirst).
        exists (file :: before), file', after.
        split; [rewrite Hl; reflexivity|]. split; [exact Hs|]. split; [exact Hp|].
        split; [exact Hfile|]. intros f Hf Hfs content.
        apply elem_of_cons in Hf as [->|Hf]; [congruence|].
        apply Hfirst; assumption.
      * intros f Hf Hfs content.
        apply elem_of_cons in Hf as [->|Hf]; [congruence|].
        apply Hanswer; assumption.
Qed.

End SmaliPath.

(** On the sample tree the class is found under the second smali root. *)
Example get_entrypoint_smali_path_sample :
  Entrypoint.get_entrypoint_smali_path EntrypointSamples.listing
    (lit "/tmp/app") (lit "com.example.Main") EntrypointSamples.tree
  = (Return (Some (lit "/tmp/app/smali_classes2/com/example/Main.smali")),
     EntrypointSamples.tree) /\
  Entrypoint.get_entrypoint_smali_path EntrypointSamples.listing
    (lit "/tmp/app") (lit "com.example.Other") EntrypointSamples.tree
  = (Return None, EntrypointSamples.tree).
Proof. split; vm_compute; reflexivity. Qed.

(** ** [get_entrypoint_class_name]: what is read off the badging dump *)

Section SplitFacts.

Implicit Types (c x : ascii) (s sub u b : str).

Lemma split_on_not_nil c s : PyMore.split_on c s <> [].
Proof.
  destruct s as [|x s]; cbn [PyMore.split_on]; [discriminate|].
  destruct (Ascii.eqb x c); [discriminate|].
  destruct (PyMore.split_on c s); discriminate.
Qed.

Lemma split_on_cons_other c x s :
  Ascii.eqb x c = false ->
  PyMore.split_on c (x :: s) =
    (x :: PyMore.first_piece (PyMore.split_on c s)) :: tl (PyMore.split_on c s).
Proof.
  intros Hx. cbn [PyMore.split_on]. rewrite Hx.
  pose proof (split_on_not_nil c s) as Hne.
  destruct (PyMore.split_on c s) as [|piece pieces]; [contradiction|reflexivity].
Qed.

(** The first piece holds no separator, and the text starts with it. *)
Lemma first_piece_no_separator c s : c ∉ PyMore.first_piece (PyMore.split_on c s).
Proof.
  induction s as [|x s IH]; [apply not_elem_of_nil|].
  destruct (Ascii.eqb x c) eqn:Hx.
  - cbn [PyMore.split_on]. rewrite Hx. apply not_elem_of_nil.
  - rewrite split_on_cons_other by exact Hx. cbn [PyMore.first_piece hd].
    apply not_elem_of_cons. split; [|exact IH].
    intros ->. rewrite Ascii.eqb_refl in Hx. discriminate.
Qed.

Lemma first_piece_prefix c s :
  exists r, s = PyMore.first_piece (PyMore.split_on c s) ++ r.
Proof.
  induction s as [|x s IH]; [exists []; reflexivity|].
  destruct (Ascii.eqb x c) eqn:Hx.
  - cbn [PyMore.split_on]. rewrite Hx. exists (x :: s). reflexivity.
  - rewrite split_on_cons_other by exact Hx. cbn [PyMore.first_piece hd].
    destruct IH as [r Hr]. exists r. cbn [app]. f_equal. exact Hr.
Qed.

(** A text that holds no separator comes out as the start of the first
    piece. *)
Lemma split_on_app_plain c u b :
  c ∉ u ->
  PyMore.split_on c (u ++ b) =
    (u ++ PyMore.first_piece (PyMore.split_on c b)) :: tl (PyMore.split_on c b).
Proof.
  induction u as [|x u IH]; intros Hu.
  - cbn [app]. pose proof (split_on_not_nil c b).
    destruct (PyMore.split_on c b); [contradiction|reflexivity].
  - apply not_elem_of_cons in Hu as [Hx Hu].
    cbn [app]. rewrite split_on_cons_other.
    + rewrite (IH Hu). reflexivity.
    + apply Ascii.eqb_neq. congruence.
Qed.

Lemma contains_nil_false sub : sub <> [] -> Py.contains sub [] = false.
Proof.
  intros Hsub. apply contains_false_iff. intros (a & b & H).
  symmetry in H. apply app_eq_nil in H as [_ H]. apply app_eq_nil in H as [H _].
  contradiction.
Qed.

(** A text holds [sub], which has no separator in it, exactly when one of
    its pieces does. *)
Lemma contains_split c sub s :
  sub <> [] -> c ∉ sub ->
  Py.contains sub s = true <->
  exists line, line ∈ PyMore.split_on c s /\ Py.contains sub line = true.
Proof.
  intros Hsub Hc. split.
  - intros H. apply contains_iff in H as (a & b & ->).
    induction a as [|x a IH].
    + cbn [app]. rewrite split_on_app_plain by exact Hc.
      eexists. split; [apply list_elem_of_here|].
      apply contains_app_l. apply contains_iff. exists [], []. rewrite app_nil_r. reflexivity.
    + destruct IH as (line & Hin & Hline). cbn [app].
      destruct (Ascii.eqb x c) eqn:Hx.
      * cbn [PyMore.split_on]. rewrite Hx. exists line.
        split; [apply list_elem_of_further; exact Hin | exact Hline].
      * rewrite split_on_cons_other by exact Hx.
        pose proof (split_on_not_nil c (a ++ sub ++ b)) as Hne.
        destruct (PyMore.split_on c (a ++ sub ++ b)) as [|piece pieces];
          [contradiction|]. cbn [PyMore.first_piece hd tl].
        apply elem_of_cons in Hin as [->|Hin].
        -- exists (x :: piece). split; [apply list_elem_of_here|].
           apply (contains_app_r sub piece [x]). exact Hline.
        -- exists line. split; [apply list_elem_of_further; exact Hin | exact Hline].
  - intros (line & Hin & Hline). revert line Hin Hline.
    induction s as [|x s IH]; intros line Hin Hline.
    + cbn [PyMore.split_on] in Hin. apply list_elem_of_singleton in Hin as ->. exact Hline.
    + destruct (Ascii.eqb x c) eqn:Hx.
      * cbn [PyMore.split_on] in Hin. rewrite Hx in Hin.
        apply elem_of_cons in Hin as [->|Hin].
        -- rewrite contains_nil_false in Hline by exact Hsub. discriminate.
        -- apply (contains_app_r sub s [x]). apply (IH line); assumption.
      * rewrite split_on_cons_other in Hin by exact Hx.
        apply elem_of_cons in Hin as [->|Hin].
        -- destruct (first_piece_prefix c s) as [r Hr].
           rewrite Hr at 1. change (x :: ?p ++ r) with ((x :: p) ++ r).
           apply contains_app_l. exact Hline.
        -- apply (contains_app_r sub s [x]). apply (IH line); [|exact Hline].
           pose proof (split_on_not_nil c s).
           destruct (PyMore.split_on c s); [contradiction|].
           apply list_elem_of_further. exact Hin.
Qed.

(** What [replace] gives is made of characters of the text and of the
    replacement. *)
Lemma replace_from_elem (old new : str) x :
  forall (s : str) (k : nat),
    x ∈ Py.replace_from old new k s -> x ∈ new \/ x ∈ s.
Proof.
  induction s as [|y s IH]; intros k Hx; cbn [Py.replace_from] in Hx.
  - apply elem_of_nil in Hx. contradiction.
  - destruct k as [|k].
    + destruct (Py.starts_with old (y :: s)).
      * apply elem_of_app in Hx as [Hx|Hx]; [left; exact Hx|].
        destruct (IH _ Hx) as [H|H]; [left; exact H|right; apply list_elem_of_further; exact H].
      * apply elem_of_cons in Hx as [->|Hx]; [right; apply list_elem_of_here|].
        destruct (IH _ Hx) as [H|H]; [left; exact H|right; apply list_elem_of_further; exact H].
    + destruct (IH _ Hx) as [H|H]; [left; exact H|right; apply list_elem_of_further; exact H].
Qed.

Lemma replace_elem (s old new : str) x :
  old <> [] -> x ∈ Py.replace s old new -> x ∈ new \/ x ∈ s.
Proof.
  intros Hold Hx. unfold Py.replace in Hx.
  destruct old as [|o old]; [contradiction|].
  eapply replace_from_elem. exact Hx.
Qed.

(** Replacing one character by nothing leaves none of it. *)
Lemma replace_char_gone x (s : str) : x ∉ Py.replace s [x] [].
Proof.
  unfold Py.replace. induction s as [|y s IH]; [apply not_elem_of_nil|].
  cbn [Py.replace_from Py.starts_with].
  destruct (Ascii.eqb x y) eqn:Hxy; cbn [andb length Nat.sub app].
  - exact IH.
  - apply not_elem_of_cons. split; [|exact IH].
    intros ->. rewrite Ascii.eqb_refl in Hxy. discriminate.
Qed.

End SplitFacts.

(** ** [str.replace]: what it leaves alone and what it takes out *)

Section ReplaceFacts.

Implicit Types (x y : ascii) (s old new a b sub : str).

Lemma replace_from_skip old new a s :
  Py.replace_from old new (length a) (a ++ s) = Py.replace_from old new 0 s.
Proof.
  induction a as [|y a IH]; [reflexivity|]. cbn [length app Py.replace_from]. exact IH.
Qed.

(** A text that starts with [old] loses it, and the scan goes on behind. *)
Lemma replace_prefix old new s :
  old <> [] -> Py.replace (old ++ s) old new = new ++ Py.replace s old new.
Proof.
  destruct old as [|c old']; [contradiction|]. intros _.
  unfold Py.replace.
  change ((c :: old') ++ s) with (c :: (old' ++ s)).
  cbn [Py.replace_from].
  change (c :: (old' ++ s)) with ((c :: old') ++ s).
  rewrite starts_with_app. cbn [length]. rewrite Nat.sub_succ, Nat.sub_0_r.
  rewrite replace_from_skip. reflexivity.
Qed.

(** A text that does not hold [old] is left as it is. *)
Lemma replace_absent old new s :
  old <> [] -> Py.contains old s = false -> Py.replace s old new = s.
Proof.
  destruct old as [|c old']; [contradiction|]. intros _.
  unfold Py.replace. induction s as [|y s IH]; intros H; [reflexivity|].
  cbn [Py.replace_from].
  destruct (Py.starts_with (c :: old') (y :: s)) eqn:E.
  - exfalso. apply starts_with_inv in E as [r Hr].
    apply contains_false_iff in H. apply H. exists [], r. exact Hr.
  - f_equal. apply IH.
    destruct (Py.contains (c :: old') s) eqn:Hc; [|reflexivity].
    apply (contains_app_r _ _ [y]) in Hc. cbn [app] in Hc. congruence.
Qed.

Lemma contains_char x s : Py.contains [x] s = true <-> x ∈ s.
Proof.
  rewrite contains_iff. split.
  - intros (a & b & ->). apply elem_of_app. right. apply list_elem_of_here.
  - intros H. apply list_elem_of_split in H as (a & b & ->). exists a, b. reflexivity.
Qed.

Lemma replace_char_absent x new s : x ∉ s -> Py.replace s [x] new = s.
Proof.
  intros H. apply replace_absent; [discriminate|].
  destruct (Py.contains [x] s) eqn:E; [|reflexivity].
  apply contains_char in E. contradiction.
Qed.

(** Replacing one character goes through the text piece by piece. *)
Lemma replace_char_app x new a b :
  Py.replace (a ++ b) [x] new = Py.replace a [x] new ++ Py.replace b [x] new.
Proof.
  unfold Py.replace. induction a as [|y a IH]; [reflexivity|].
  cbn [app Py.replace_from Py.starts_with length Nat.sub].
  destruct (Ascii.eqb x y); cbn [andb].
  - rewrite IH, app_assoc. reflexivity.
  - rewrite IH. reflexivity.
Qed.

Lemma replace_char_one x y :
  Py.replace [y] [x] [] = if Ascii.eqb x y then [] else [y].
Proof.
  unfold Py.replace. cbn [Py.replace_from Py.starts_with].
  destruct (Ascii.eqb x y); reflexivity.
Qed.




(** A text put between two quote characters holds [sub] only where the
    text itself does, when [sub] has no quote in it. *)
Lemma contains_quoted x sub s :
  sub <> [] -> x ∉ sub -> Py.contains sub s = false ->
  Py.contains sub (x :: s ++ [x]) = false.
Proof.
  intros Hne Hx Hs. apply contains_false_iff. intros (a & b & H).
  destruct a as [|y a].
  - destruct sub as [|c sub']; [contradiction|]. cbn [app] in H.
    injection H as -> _. apply Hx. apply list_elem_of_here.
  - cbn [app] in H. injection H as _ H.
    destruct b as [|z b _] using rev_ind.
    + rewrite app_nil_r in H.
      destruct sub as [|z sub' _] using rev_ind; [contradiction|].
      rewrite app_assoc in H. apply app_inj_tail in H as [_ ->].
      apply Hx. apply elem_of_app. right. apply list_elem_of_here.
    + rewrite !app_assoc in H. apply app_inj_tail in H as [H _].
      apply contains_false_iff in Hs. apply Hs. exists a, b.
      rewrite H, <- app_assoc. reflexivity.
Qed.

End ReplaceFacts.

(** ** [get_entrypoint_class_name]: the class read off the dump *)

Section EntrypointClass.

Import Entrypoint.

Implicit Types (dump line pre cls rest : str) (lines : list str) (q : ascii).

Lemma marker_not_nil : lit "launchable-activity:" <> [].
Proof. discriminate. Qed.

Lemma marker_on_one_line : newline ∉ lit "launchable-activity:".
Proof. rewrite list_elem_of_In. cbn. intuition discriminate. Qed.

(** The loop finds nothing exactly when no line holds the marker; what it
    finds is made of one of the lines; and it stops at the first line that
    holds the marker. *)
Lemma class_of_lines_none lines :
  class_of_lines lines = None <->
  forall line, line ∈ lines -> Py.contains (lit "launchable-activity:") line = false.
Proof.
  induction lines as [|l lines IH]; cbn [class_of_lines].
  - split; [|reflexivity]. intros _ line H. inversion H.
  - destruct (Py.contains (lit "launchable-activity:") l) eqn:E.
    + split; [discriminate|]. intros H.
      rewrite (H l) in E by apply list_elem_of_here. discriminate.
    + rewrite IH. split.
      * intros H line Hin. apply elem_of_cons in Hin as [->|Hin]; [exact E|exact (H line Hin)].
      * intros H line Hin. apply H. apply list_elem_of_further. exact Hin.
Qed.

Lemma class_of_lines_some lines cls :
  class_of_lines lines = Some cls -> exists line, line ∈ lines /\ cls = class_of_line line.
Proof.
  induction lines as [|l lines IH]; cbn [class_of_lines]; [discriminate|].
  destruct (Py.contains (lit "launchable-activity:") l).
  - intros H. exists l. split; [apply list_elem_of_here|congruence].
  - intros H. destruct (IH H) as (line & Hin & Hc). exists line.
    split; [apply list_elem_of_further; exact Hin|exact Hc].
Qed.

Lemma class_of_lines_first (before after : list str) line :
  (forall l, l ∈ before -> Py.contains (lit "launchable-activity:") l = false) ->
  Py.contains (lit "launchable-activity:") line = true ->
  class_of_lines (before ++ line :: after) = Some (class_of_line line).
Proof.
  intros Hb Hl. induction before as [|l before IH]; cbn [app class_of_lines].
  - rewrite Hl. reflexivity.
  - rewrite (Hb l) by apply list_elem_of_here. apply IH.
    intros l' Hl'. apply Hb. apply list_elem_of_further. exact Hl'.
Qed.

(** What is made of a line holds no space and no quote of either kind. *)
Lemma class_of_line_clean line :
  (" "%char ∉ class_of_line line) /\ ("'"%char ∉ class_of_line line) /\
  (dquote ∉ class_of_line line).
Proof.
  unfold class_of_line. cbv zeta.
  set (piece := PyMore.first_piece _).
  assert (Hsp : " "%char ∉ piece) by apply first_piece_no_separator.
  split; [|split].
  - intros H.
    apply replace_elem in H as [H|H]; [inversion H| |discriminate].
    apply replace_elem in H as [H|H]; [inversion H| |discriminate].
    apply replace_elem in H as [H|H]; [inversion H| |discriminate].
    exact (Hsp H).
  - intros H.
    apply replace_elem in H as [H|H]; [inversion H| |discriminate].
    revert H. change (lit "'") with ["'"%char]. apply replace_char_gone.
  - apply replace_char_gone.
Qed.

(** The class between the quotes of an activity line is what the line
    gives. *)
Lemma class_of_activity_line pre q cls rest :
  found_in (lit "name=") (activity_line pre q cls rest) 0
    (Py.len (activity_line pre q cls rest)) (Py.len pre) ->
  q = "'"%char \/ q = dquote ->
  " "%char ∉ cls -> "'"%char ∉ cls -> dquote ∉ cls ->
  Py.contains (lit "name=") cls = false ->
  rest = [] \/ (exists rest', rest = " "%char :: rest') ->
  class_of_line (activity_line pre q cls rest) = cls.
Proof.
  intros Hf Hq Hsp Hsq Hdq Hname Hrest.
  unfold class_of_line. cbv zeta.
  destruct (find0_of_found _ _ _ Hf) as [-> _].
  unfold activity_line. rewrite slice_from_app.
  replace (lit "name=" ++ q :: cls ++ q :: rest)
    with ((lit "name=" ++ q :: cls ++ [q]) ++ rest).
  2:{ rewrite <- app_assoc. f_equal. cbn [app]. f_equal.
      rewrite <- app_assoc. reflexivity. }
  assert (Hq' : q <> " "%char) by (destruct Hq as [->| ->]; discriminate).
  rewrite split_on_app_plain.
  2:{ intros H. apply elem_of_app in H as [H|H].
      - revert H. rewrite list_elem_of_In. cbn. intuition discriminate.
      - apply elem_of_cons in H as [H|H]; [congruence|].
        apply elem_of_app in H as [H|H]; [exact (Hsp H)|].
        apply list_elem_of_singleton in H. congruence. }
  cbn [PyMore.first_piece hd].
  assert (Hfirst : PyMore.first_piece (PyMore.split_on " " rest) = []).
  { destruct Hrest as [->|[rest' ->]]; reflexivity. }
  rewrite Hfirst, app_nil_r.
  rewrite replace_prefix by discriminate. cbn [app].
  rewrite (replace_absent (lit "name=") [] (q :: cls ++ [q])); [|discriminate|].
  2:{ apply contains_quoted; [discriminate| |exact Hname].
      rewrite list_elem_of_In. cbn. destruct Hq as [->| ->]; intuition discriminate. }
  change (lit "'") with ["'"%char].
  change (q :: cls ++ [q]) with ([q] ++ cls ++ [q]).
  rewrite (replace_char_app "'"), (replace_char_app "'" [] cls).
  rewrite !replace_char_one, (replace_char_absent "'" [] cls) by exact Hsq.
  destruct Hq as [->| ->].
  - cbn [Ascii.eqb Bool.eqb app]. rewrite app_nil_r.
    apply replace_char_absent. exact Hdq.
  - change (Ascii.eqb "'" dquote) with false. cbv iota.
    rewrite (replace_char_app dquote), (replace_char_app dquote [] cls).
    rewrite !replace_char_one, Ascii.eqb_refl.
    cbn [app]. rewrite app_nil_r. apply replace_char_absent. exact Hdq.
Qed.

(** [get_entrypoint_class_name] returns [None] exactly when the dump does
    not hold [launchable-activity:] anywhere. *)
Theorem get_entrypoint_class_name_none_iff dump :
  get_entrypoint_class_name dump = None <->
  Py.contains (lit "launchable-activity:") dump = false.
Proof.
  unfold get_entrypoint_class_name. rewrite class_of_lines_none. split.
  - intros H. destruct (Py.contains (lit "launchable-activity:") dump) eqn:E; [|reflexivity].
    apply (contains_split newline) in E as (line & Hin & Hl);
      [|exact marker_not_nil|exact marker_on_one_line].
    rewrite (H line Hin) in Hl. discriminate.
  - intros H line Hin.
    destruct (Py.contains (lit "launchable-activity:") line) eqn:E; [|reflexivity].
    assert (Py.contains (lit "launchable-activity:") dump = true) as Hd.
    { apply (contains_split newline); [exact marker_not_nil|exact marker_on_one_line|].
      exists line. split; assumption. }
    congruence.
Qed.

(** The class name that [get_entrypoint_class_name] returns holds no
    space, no single quote and no double quote. *)
Theorem get_entrypoint_class_name_clean dump cls :
  get_entrypoint_class_name dump = Some cls ->
  (" "%char ∉ cls) /\ ("'"%char ∉ cls) /\ (dquote ∉ cls).
Proof.
  unfold get_entrypoint_class_name. intros H.
  apply class_of_lines_some in H as (line & _ & ->).
  apply class_of_line_clean.
Qed.

(** When the first line of the dump that holds [launchable-activity:] is
    an activity line, with the first [name=] of the line in front of the
    quoted class and a space or the end of the line behind it, and the
    class holds no space, no quote and no [name=], the method returns
    that class. *)
Theorem get_entrypoint_class_name_reads_name
    dump (before after : list str) pre q cls rest :
  PyMore.split_on newline dump = before ++ activity_line pre q cls rest :: after ->
  (forall l, l ∈ before -> Py.contains (lit "launchable-activity:") l = false) ->
  Py.contains (lit "launchable-activity:") (activity_line pre q cls rest) = true ->
  found_in (lit "name=") (activity_line pre q cls rest) 0
    (Py.len (activity_line pre q cls rest)) (Py.len pre) ->
  q = "'"%char \/ q = dquote ->
  " "%char ∉ cls -> "'"%char ∉ cls -> dquote ∉ cls ->
  Py.contains (lit "name=") cls = false ->
  rest = [] \/ (exists rest', rest = " "%char :: rest') ->
  get_entrypoint_class_name dump = Some cls.
Proof.
  intros Hsplit Hbefore Hline Hf Hq Hsp Hsq Hdq Hname Hrest.
  unfold get_entrypoint_class_name. rewrite Hsplit.
  rewrite class_of_lines_first by assumption.
  f_equal. apply class_of_activity_line; assumption.
Qed.

End EntrypointClass.

Lemma get_entrypoint_class_name_clean_witness :
  Entrypoint.get_entrypoint_class_name EntrypointSamples.badging
    = Some (lit "com.example.Main") /\
  (" "%char ∉ lit "com.example.Main") /\ ("'"%char ∉ lit "com.example.Main") /\
  (dquote ∉ lit "com.example.Main").
Proof.
  split; [vm_compute; reflexivity|].
  apply (get_entrypoint_class_name_clean EntrypointSamples.badging).
  vm_compute. reflexivity.
Defined.

Lemma get_entrypoint_class_name_reads_name_witness :
  Entrypoint.get_entrypoint_class_name EntrypointSamples.badging
    = Some (lit "com.example.Main").
Proof.
  apply (get_entrypoint_class_name_reads_name EntrypointSamples.badging
           [lit "package: name='com.example' versionCode='1'"]
           [lit "densities: '160'"; []]
           (lit "launchable-activity: ") "'"%char (lit "com.example.Main")
           (lit "  label='' icon=''")).
  - vm_compute. reflexivity.
  - intros l Hl. apply list_elem_of_singleton in Hl as ->. vm_compute. reflexivity.
  - vm_compute. reflexivity.
  - apply find_found_iff;
      [lia | vm_compute; split; discriminate
      | split; [vm_compute; reflexivity | vm_compute; discriminate]].
  - left. reflexivity.
  - rewrite list_elem_of_In. cbn. intuition discriminate.
  - rewrite list_elem_of_In. cbn. intuition discriminate.
  - rewrite list_elem_of_In. cbn. intuition discriminate.
  - vm_compute. reflexivity.
  - right. eexists. reflexivity.
Defined.

(** ** [insert_frida_lib] without companions: the payload is copied *)

Section PlainInstall.

Import Patcher.

Implicit Types (fs : gmap str node) (folder gadget p content : str)
  (cfg auto : option str) (folders : list str).




(** A payload path that is the installed payload of the folder itself:
    the removal deletes the file and the copy then finds no source, so the
    body raises [FileNotFoundError] and the payload is lost. *)
Theorem installed_payload_given_as_source_is_lost cfg auto folder fs content :
  Py.truthy cfg = false -> Py.truthy auto = false ->
  fs !! Py.join folder DEFAULT_GADGET_NAME = Some (File content) ->
  install_in_folder (Py.join folder DEFAULT_GADGET_NAME) cfg auto folder fs =
    (Raise FileNotFoundError, delete (Py.join folder DEFAULT_GADGET_NAME) fs).
Proof.
  intros Hcfg Hauto Hsrc.
  unfold install_in_folder. rewrite Hcfg, Hauto. cbn [andb negb].
  unfold delete_existing_gadget, bind at 1 2 3, Os.isfile, Os.remove, ret.
  rewrite Hsrc. rewrite Hsrc. change (0 =? 0) with true. cbn [negb].
  unfold bind, Os.copyfile. rewrite lookup_delete_eq. reflexivity.
Qed.

End PlainInstall.


Lemma installed_payload_given_as_source_is_lost_witness :
  Patcher.install_in_folder
    (Py.join (lit "/tmp/app/lib/arm64-v8a") Patcher.DEFAULT_GADGET_NAME) None None
    (lit "/tmp/app/lib/arm64-v8a") TreeSamples.patched_tree =
    (Raise FileNotFoundError,
     delete (Py.join (lit "/tmp/app/lib/arm64-v8a") Patcher.DEFAULT_GADGET_NAME)
       TreeSamples.patched_tree).
Proof.
  apply (installed_payload_given_as_source_is_lost None None
           (lit "/tmp/app/lib/arm64-v8a") TreeSamples.patched_tree (lit "OLD GADGET")).
  - reflexivity.
  - reflexivity.
  - vm_compute. reflexivity.
Defined.

(** The whole call of [main] on the sample tree: the directory is planned
    and the payload is in it. *)
Example insert_frida_lib_without_companions :
  let run := Patcher.insert_frida_lib (lit "/tmp/app") TreeSamples.gadget None None
               TreeSamples.sources in
  fst run = Return true /\
  snd run !! lit "/tmp/app/lib/arm64-v8a/libfrida-gadget.so" = Some (File (lit "GADGET")).
Proof. cbv zeta. split; vm_compute; reflexivity. Qed.

(** ** [create_temp_folder_for_apk]: where the working directory lies *)

Section WorkdirFacts.

Implicit Types (system_tmp_dir apk_path name : str).



End WorkdirFacts.

(** The working directory of an apk given by a path, and of a name with
    dots in it. *)
Example final_tmp_dir_samples :
  Workdir.final_tmp_dir (lit "/tmp") (lit "/home/u/my.app.apk")
    = lit "/tmp/apkpatcher_tmp/my_app" /\
  Workdir.final_tmp_dir (lit "/tmp") (lit "../..")
    = lit "/tmp/apkpatcher_tmp/__" /\
  Workdir.final_tmp_dir (lit "/tmp") (lit "apks/")
    = lit "/tmp/apkpatcher_tmp/".
Proof. repeat split; vm_compute; reflexivity. Qed.

(** ** The two methods that rewrite a file: what they leave alone *)

Section OneFile.

Import Patcher.

Implicit Types (fs : gmap str node) (path lib base_dir permission p : str).

(** [insert_frida_loader] changes no path but the class file; a call that
    does not return [True] changes nothing at all; and a class file that
    is not there, or is a directory, is an exception of [open]. *)
Theorem insert_frida_loader_touches_one_file fs path lib :
  (forall p, p <> path -> snd (insert_frida_loader path lib fs) !! p = fs !! p) /\
  (fst (insert_frida_loader path lib fs) <> Return true ->
   snd (insert_frida_loader path lib fs) = fs) /\
  (fs !! path = None ->
   fst (insert_frida_loader path lib fs) = Raise FileNotFoundError) /\
  (fs !! path = Some Dir ->
   fst (insert_frida_loader path lib fs) = Raise IsADirectoryError).
Proof.
  unfold insert_frida_loader, bind, Os.read_text, Os.write_text, ret.
  destruct (fs !! path) as [[content|]|] eqn:E.
  - destruct (insert_frida_loader_content content lib) as [| | | |new];
      rewrite ?E; cbn [fst snd];
      (split; [|split; [|split; discriminate]]);
      try reflexivity; try (intros _; reflexivity).
    + intros p Hp. apply lookup_insert_ne. congruence.
    + intros H. contradiction.
  - cbn [fst snd]. split; [reflexivity|]. split; [reflexivity|].
    split; [discriminate|reflexivity].
  - cbn [fst snd]. split; [reflexivity|]. split; [reflexivity|].
    split; [reflexivity|discriminate].
Qed.

(** [inject_permission_manifest] changes no path but the manifest of the
    tree; a call that returns [False] or raises changes nothing at all;
    and a manifest that is not there is an exception of [open]. *)
Theorem inject_permission_manifest_touches_one_file fs base_dir permission :
  (forall p, p <> Py.join base_dir (lit "AndroidManifest.xml") ->
     snd (inject_permission_manifest base_dir permission fs) !! p = fs !! p) /\
  (fst (inject_permission_manifest base_dir permission fs) <> Return None ->
   snd (inject_permission_manifest base_dir permission fs) = fs) /\
  (fs !! Py.join base_dir (lit "AndroidManifest.xml") = None ->
   fst (inject_permission_manifest base_dir permission fs) = Raise FileNotFoundError).
Proof.
  unfold inject_permission_manifest, bind, Os.read_text, Os.write_text, ret.
  destruct (fs !! Py.join base_dir (lit "AndroidManifest.xml")) as [[content|]|] eqn:E.
  - destruct (inject_permission_manifest_content content permission) as [new|];
      rewrite ?E; cbn [fst snd]; (split; [|split; [|discriminate]]).
    + intros p Hp. apply lookup_insert_ne. congruence.
    + intros H. contradiction.
    + reflexivity.
    + reflexivity.
  - cbn [fst snd]. split; [reflexivity|]. split; [reflexivity|discriminate].
  - cbn [fst snd]. split; [reflexivity|]. split; reflexivity.
Qed.

End OneFile.
